(** * YeeLoong laptop platform driver: the SCI hotkey event pipeline

    A shallow embedding of the hotkey sub-driver of
    [drivers/platform/mips/yeeloong_laptop.c]: the video output controller,
    the per-event handlers, the key-entry resolution with its brightness and
    volume history, the event dispatch, the SCI interrupt routine and the
    interrupt (re)initialisation.

    C [int] values are integers of [Z]; conversions of values to the
    narrower or unsigned types of the C code are written out (register and
    port numbers are constants and are logged as they are).  The driver's static
    variables are the fields of one record, threaded through a state monad.
    Everything the driver does to the outside (EC registers, I/O ports,
    MSRs, the input layer, the power-supply core, delays) is appended to a
    chronological trace; values coming from the outside are answers of a
    hardware oracle that may depend on the whole history. *)

From Stdlib Require Import ZArith List String Ascii Bool Lia.
Import ListNotations.
Open Scope Z_scope.

(** ** C integer types *)

Definition int_of (z : Z) : Z := (z + 2 ^ 31) mod 2 ^ 32 - 2 ^ 31.
Definition u8_of (z : Z) : Z := z mod 2 ^ 8.
Definition u32_of (z : Z) : Z := z mod 2 ^ 32.

(** C truth value of an [int]. *)
Definition truthy (z : Z) : bool := negb (z =? 0).

(** C logical negation [!z]. *)
Definition lnot (z : Z) : Z := if z =? 0 then 1 else 0.

Definition ON : Z := 1.
Definition OFF : Z := 0.

(** The line feed that ends the kernel's log messages. *)
Definition newline : string := String "010"%char EmptyString.

(** ** Constants and tables of headers outside this file

    [ec_kb3310b.h] (EC registers, SCI event numbers, the SCI interrupt line),
    [cs5536.h] (the MSR holding the GPIO base), the input event codes, and the
    case-folding table of [ctype.h] are taken as parameters. *)

Class Headers : Type := {
  REG_CRT_DETECT : Z;
  REG_CAMERA_STATUS : Z;
  REG_CAMERA_CONTROL : Z;
  REG_LID_DETECT : Z;
  REG_USB2_FLAG : Z;
  REG_USB0_FLAG : Z;
  REG_DISPLAY_LCD : Z;
  REG_AUDIO_MUTE : Z;
  REG_DISPLAY_BRIGHTNESS : Z;
  REG_AUDIO_VOLUME : Z;
  EVENT_LID : Z;
  EVENT_SWITCHVIDEOMODE : Z;
  EVENT_SLEEP : Z;
  EVENT_CRT_DETECT : Z;
  EVENT_CAMERA : Z;
  EVENT_USB_OC2 : Z;
  EVENT_USB_OC0 : Z;
  EVENT_DISPLAY_TOGGLE : Z;
  EVENT_AUDIO_MUTE : Z;
  EVENT_DISPLAY_BRIGHTNESS : Z;
  EVENT_AC_BAT : Z;
  EVENT_AUDIO_VOLUME : Z;
  EVENT_WLAN : Z;
  EVENT_START : Z;
  EVENT_END : Z;
  SCI_IRQ_NUM : Z;
  DIVIL_MSR_REG_DIVIL_LBAR_GPIO : Z;
  SW_LID : Z;
  KEY_CAMERA : Z;
  KEY_SLEEP : Z;
  KEY_DISPLAYTOGGLE : Z;
  KEY_SWITCHVIDEOMODE : Z;
  KEY_MUTE : Z;
  KEY_WLAN : Z;
  KEY_BRIGHTNESSUP : Z;
  KEY_BRIGHTNESSDOWN : Z;
  KEY_VOLUMEUP : Z;
  KEY_VOLUMEDOWN : Z;
  tolower : ascii -> ascii
}.

(** ** Effects *)

Inductive power_supply : Type := yeeloong_ac | yeeloong_bat.

Inductive key_type : Type := KE_KEY | KE_SW | KE_END.

(** [struct key_entry]: type, scan code, and the key code (or switch code). *)
Record key_entry : Type := mk_key_entry {
  ke_type : key_type;
  ke_code : Z;
  ke_keycode : Z
}.

Inductive io_event : Type :=
| EcRead (reg value : Z)
| EcWrite (reg value : Z)
| EcQueryEventNum (ret : Z)
| EcGetEventNum (event : Z)
| Outb (value port : Z)
| Inb (port value : Z)
| Outl (value port : Z)
| Rdmsr (msr hi lo : Z)
| Wrmsr (msr hi lo : Z)
| LocalIrqSave
| LocalIrqRestore
| Mdelay (msecs : Z)
| InputReportSwitch (code value : Z)
| InputSync
| SparseKeymapReportEntry (ke : key_entry) (value : Z) (autorelease : bool)
| PowerSupplyChanged (psy : power_supply)
| PrEmerg (msg : string).

(** What the machine answers, given everything that happened before. *)
Record Hardware : Type := {
  hw_ec_read : list io_event -> Z -> Z;
  hw_ec_query_event_num : list io_event -> Z;
  hw_ec_get_event_num : list io_event -> Z;
  hw_inb : list io_event -> Z -> Z;
  hw_rdmsr : list io_event -> Z -> Z * Z;
  ec_kb3310b_ver : string
}.

(** ** Driver state: the static variables and the trace *)

Record driver : Type := mk_driver {
  video_output_status : Z;
  old_brightness_status : Z;
  old_volume_status : Z;
  ac_bat_initialized : Z;
  trace : list io_event
}.

(** The statics as the C initialisers leave them when the module is loaded. *)
Definition driver_load : driver :=
  {| video_output_status := 0;
     old_brightness_status := -1;
     old_volume_status := -1;
     ac_bat_initialized := 0;
     trace := [] |}.

Definition set_video_output_status (v : Z) (st : driver) : driver :=
  {| video_output_status := v;
     old_brightness_status := old_brightness_status st;
     old_volume_status := old_volume_status st;
     ac_bat_initialized := ac_bat_initialized st;
     trace := trace st |}.

Definition set_old_brightness_status (v : Z) (st : driver) : driver :=
  {| video_output_status := video_output_status st;
     old_brightness_status := v;
     old_volume_status := old_volume_status st;
     ac_bat_initialized := ac_bat_initialized st;
     trace := trace st |}.

Definition set_old_volume_status (v : Z) (st : driver) : driver :=
  {| video_output_status := video_output_status st;
     old_brightness_status := old_brightness_status st;
     old_volume_status := v;
     ac_bat_initialized := ac_bat_initialized st;
     trace := trace st |}.

Definition set_ac_bat_initialized (v : Z) (st : driver) : driver :=
  {| video_output_status := video_output_status st;
     old_brightness_status := old_brightness_status st;
     old_volume_status := old_volume_status st;
     ac_bat_initialized := v;
     trace := trace st |}.

Definition log (e : io_event) (st : driver) : driver :=
  {| video_output_status := video_output_status st;
     old_brightness_status := old_brightness_status st;
     old_volume_status := old_volume_status st;
     ac_bat_initialized := ac_bat_initialized st;
     trace := trace st ++ [e] |}.

(** ** The state monad *)

Definition M (A : Type) : Type := driver -> A * driver.

Definition ret {A : Type} (a : A) : M A := fun st => (a, st).

Definition bind {A B : Type} (c : M A) (k : A -> M B) : M B :=
  fun st => let (a, st') := c st in k a st'.

Definition get {A : Type} (f : driver -> A) : M A := fun st => (f st, st).

Definition modify (f : driver -> driver) : M unit := fun st => (tt, f st).

Definition emit (e : io_event) : M unit := modify (log e).

Declare Scope driver_scope.
Delimit Scope driver_scope with drv.
Notation "x <- c ;; k" := (bind c (fun x => k))
  (at level 61, c at next level, right associativity) : driver_scope.
Notation "c ;; k" := (bind c (fun _ => k))
  (at level 61, right associativity) : driver_scope.
Open Scope driver_scope.

Section Driver.

Context {hdr : Headers}.
Variable hw : Hardware.

(** ** Primitives of the platform *)

Definition ec_read (reg : Z) : M Z := fun st =>
  let v := u8_of (hw_ec_read hw (trace st) reg) in (v, log (EcRead reg v) st).

Definition ec_write (reg value : Z) : M unit :=
  emit (EcWrite reg (u8_of value)).

Definition ec_query_event_num : M Z := fun st =>
  let r := int_of (hw_ec_query_event_num hw (trace st)) in
  (r, log (EcQueryEventNum r) st).

Definition ec_get_event_num : M Z := fun st =>
  let e := int_of (hw_ec_get_event_num hw (trace st)) in
  (e, log (EcGetEventNum e) st).

Definition outb (value port : Z) : M unit := emit (Outb (u8_of value) port).

Definition inb (port : Z) : M Z := fun st =>
  let v := u8_of (hw_inb hw (trace st) port) in (v, log (Inb port v) st).

Definition outl (value port : Z) : M unit := emit (Outl (u32_of value) port).

Definition _rdmsr (msr : Z) : M (Z * Z) := fun st =>
  let (hi, lo) := hw_rdmsr hw (trace st) msr in
  let hi := u32_of hi in
  let lo := u32_of lo in
  ((hi, lo), log (Rdmsr msr hi lo) st).

Definition _wrmsr (msr hi lo : Z) : M unit :=
  emit (Wrmsr msr (u32_of hi) (u32_of lo)).

Definition mdelay (msecs : Z) : M unit := emit (Mdelay msecs).

(** ** Video output controller *)

Definition LCD : Z := 0.
Definition CRT : Z := 1.

Definition display_vo_set (display on : Z) : M unit :=
  let addr := if display =? LCD then 0x31 else 0x21 in
  outb addr 0x3c4 ;;
  value <- inb 0x3c5 ;;
  let value :=
    if display =? LCD then Z.lor value (if truthy on then 0x03 else 0x02)
    else if truthy on then Z.clearbit value 7 else Z.setbit value 7 in
  outb addr 0x3c4 ;;
  outb value 0x3c5.

(** ** EC firmware version test *)

Definition deref (s : string) : ascii :=
  match s with
  | EmptyString => zero
  | String c _ => c
  end.

Definition next (s : string) : string :=
  match s with
  | EmptyString => EmptyString
  | String _ t => t
  end.

Definition uchar (c : ascii) : Z := Z.of_N (N_of_ascii c).

Definition is_nul (c : ascii) : bool := uchar c =? 0.

(** Modelled from the spec: [strncasecmp] of the kernel's string library is
    not part of this file; the spec describes it as a string compare,
    case-insensitive, over the first [len] bytes.  The model walks both
    strings byte by byte, stops at a terminator or at the first pair of bytes
    that differ after case folding, and returns the difference of the two
    bytes it stopped at ([0] when [len] bytes were equal). *)
Fixpoint strncasecmp (s1 s2 : string) (len : nat) : Z :=
  match len with
  | O => 0
  | S len' =>
      let c1 := deref s1 in
      let c2 := deref s2 in
      if is_nul c1 || is_nul c2 then uchar c1 - uchar c2
      else if uchar c1 =? uchar c2 then strncasecmp (next s1) (next s2) len'
      else
        let c1 := tolower c1 in
        let c2 := tolower c2 in
        if negb (uchar c1 =? uchar c2) then uchar c1 - uchar c2
        else strncasecmp (next s1) (next s2) len'
  end.

Definition ec_version_before (version : string) : Z :=
  if strncasecmp (ec_kb3310b_ver hw) version 64 <? 0 then 1 else 0.

(** ** Hotkey sub-driver *)

Definition yeeloong_keymap : list key_entry :=
  [ mk_key_entry KE_SW EVENT_LID SW_LID;
    mk_key_entry KE_KEY EVENT_CAMERA KEY_CAMERA;
    mk_key_entry KE_KEY EVENT_SLEEP KEY_SLEEP;
    mk_key_entry KE_KEY EVENT_DISPLAY_TOGGLE KEY_DISPLAYTOGGLE;
    mk_key_entry KE_KEY EVENT_SWITCHVIDEOMODE KEY_SWITCHVIDEOMODE;
    mk_key_entry KE_KEY EVENT_AUDIO_MUTE KEY_MUTE;
    mk_key_entry KE_KEY EVENT_WLAN KEY_WLAN;
    mk_key_entry KE_KEY EVENT_DISPLAY_BRIGHTNESS KEY_BRIGHTNESSUP;
    mk_key_entry KE_KEY EVENT_DISPLAY_BRIGHTNESS KEY_BRIGHTNESSDOWN;
    mk_key_entry KE_KEY EVENT_AUDIO_VOLUME KEY_VOLUMEUP;
    mk_key_entry KE_KEY EVENT_AUDIO_VOLUME KEY_VOLUMEDOWN;
    mk_key_entry KE_END 0 0 ].

Definition is_KE_END (t : key_type) : bool :=
  match t with
  | KE_END => true
  | _ => false
  end.

(** Modelled from the spec: [sparse_keymap_entry_from_scancode] of the input
    core is not part of this file; the spec has the key resolved "via the
    keymap table, keyed by EventCode", nothing being resolved when no entry
    matches.  The model scans the table from position [pos] up to the
    [KE_END] entry and answers the position of the first entry whose scan
    code is [code] (scan codes are [unsigned int]). *)
Fixpoint scan_keymap (keymap : list key_entry) (pos : nat) (code : Z)
  : option nat :=
  match keymap with
  | [] => None
  | key :: rest =>
      if is_KE_END (ke_type key) then None
      else if u32_of code =? u32_of (ke_code key) then Some pos
      else scan_keymap rest (S pos) code
  end.

(** The input device carries the table installed by [sparse_keymap_setup]
    in [yeeloong_hotkey_init], that is [yeeloong_keymap]; a [struct
    key_entry *] into it is a position. *)
Definition sparse_keymap_entry_from_scancode (code : Z) : option nat :=
  scan_keymap yeeloong_keymap 0 code.

Definition key_at (ke : nat) : key_entry :=
  nth ke yeeloong_keymap (mk_key_entry KE_END 0 0).

Definition get_event_key_entry (event status : Z) : M (option nat) :=
  match sparse_keymap_entry_from_scancode event with
  | None => ret None
  | Some ke =>
      if event =? EVENT_DISPLAY_BRIGHTNESS then
        old <- get old_brightness_status ;;
        let ke := if (status =? 0) || (status <? old) then S ke else ke in
        modify (set_old_brightness_status status) ;;
        ret (Some ke)
      else if event =? EVENT_AUDIO_VOLUME then
        old <- get old_volume_status ;;
        let ke := if (status =? 0) || (status <? old) then S ke else ke in
        modify (set_old_volume_status status) ;;
        ret (Some ke)
      else ret (Some ke)
  end.

Definition report_lid_switch (status : Z) : M Z :=
  emit (InputReportSwitch SW_LID (lnot status)) ;;
  emit InputSync ;;
  ret status.

Definition yeeloong_vo_set (lcd_status crt_status : Z) : M unit :=
  display_vo_set LCD lcd_status ;;
  display_vo_set CRT crt_status.

Definition crt_detect_handler (status : Z) : M Z :=
  (if truthy status then yeeloong_vo_set ON ON else yeeloong_vo_set ON OFF) ;;
  ret status.

Definition displaytoggle_handler (status : Z) : M Z :=
  (if truthy (ec_version_before "EC_VER=PQ1D26")
   then display_vo_set LCD status
   else ret tt) ;;
  ret status.

Definition switchvideomode_handler (status : Z) : M Z :=
  crt <- ec_read REG_CRT_DETECT ;;
  if crt =? OFF then ret 0
  else
    v <- get video_output_status ;;
    modify (set_video_output_status (int_of (v + 1))) ;;
    v <- get video_output_status ;;
    (if v >? 4 then modify (set_video_output_status 1) else ret tt) ;;
    v <- get video_output_status ;;
    (if v =? 1 then yeeloong_vo_set ON ON
     else if v =? 2 then yeeloong_vo_set OFF ON
     else if v =? 3 then yeeloong_vo_set OFF OFF
     else if v =? 4 then yeeloong_vo_set ON OFF
     else display_vo_set LCD ON) ;;
    ret v.

Definition camera_handler (status : Z) : M Z :=
  value <- ec_read REG_CAMERA_CONTROL ;;
  ec_write REG_CAMERA_CONTROL (Z.lor value (Z.shiftl 1 1)) ;;
  ret status.

Definition usb2_handler (status : Z) : M Z :=
  emit (PrEmerg (String.append "USB2 Over Current occurred" newline)) ;;
  ret status.

Definition usb0_handler (status : Z) : M Z :=
  emit (PrEmerg (String.append "USB0 Over Current occurred" newline)) ;;
  ret status.

Definition ac_bat_handler (status : Z) : M Z :=
  initialized <- get ac_bat_initialized ;;
  (if truthy initialized
   then emit (PowerSupplyChanged yeeloong_ac) ;;
        emit (PowerSupplyChanged yeeloong_bat)
   else ret tt) ;;
  ret status.

Definition sci_handler : Type := Z -> M Z.

(** The [switch] of [do_event_action]: the register to read ([0] for none)
    and the handler to call, per event. *)
Definition event_binding (event : Z) : Z * option sci_handler :=
  if event =? EVENT_LID then (REG_LID_DETECT, None)
  else if event =? EVENT_SWITCHVIDEOMODE then (0, Some switchvideomode_handler)
  else if event =? EVENT_CRT_DETECT then (REG_CRT_DETECT, Some crt_detect_handler)
  else if event =? EVENT_CAMERA then (REG_CAMERA_STATUS, Some camera_handler)
  else if event =? EVENT_USB_OC2 then (REG_USB2_FLAG, Some usb2_handler)
  else if event =? EVENT_USB_OC0 then (REG_USB0_FLAG, Some usb0_handler)
  else if event =? EVENT_DISPLAY_TOGGLE then (REG_DISPLAY_LCD, Some displaytoggle_handler)
  else if event =? EVENT_AUDIO_MUTE then (REG_AUDIO_MUTE, None)
  else if event =? EVENT_DISPLAY_BRIGHTNESS then (REG_DISPLAY_BRIGHTNESS, None)
  else if event =? EVENT_AUDIO_VOLUME then (REG_AUDIO_VOLUME, None)
  else if event =? EVENT_AC_BAT then (0, Some ac_bat_handler)
  else (0, None).

(** [pr_debug] is compiled out and leaves no trace. *)
Definition do_event_action (event : Z) : M unit :=
  let (reg, handler) := event_binding event in
  status <- (if negb (reg =? 0) then ec_read reg else ret 0) ;;
  status <- match handler with
            | Some h => h status
            | None => ret status
            end ;;
  ke <- get_event_key_entry event status ;;
  match ke with
  | Some ke =>
      if ke_keycode (key_at ke) =? SW_LID
      then report_lid_switch status ;; ret tt
      else emit (SparseKeymapReportEntry (key_at ke) 1 true)
  | None => ret tt
  end.

Inductive irqreturn_t : Type := IRQ_NONE | IRQ_HANDLED.

Definition sci_irq_handler (irq : Z) : M irqreturn_t :=
  if negb (irq =? SCI_IRQ_NUM) then ret IRQ_NONE
  else
    r <- ec_query_event_num ;;
    if r <? 0 then ret IRQ_NONE
    else
      event <- ec_get_event_num ;;
      if (event <? EVENT_START) || (event >? EVENT_END) then ret IRQ_NONE
      else do_event_action event ;; ret IRQ_HANDLED.

Definition sci_irq_init : M Z :=
  p <- _rdmsr DIVIL_MSR_REG_DIVIL_LBAR_GPIO ;;
  let gpio_base := Z.land (snd p) 0xff00 in
  r <- ec_query_event_num ;;
  if truthy r then ret r
  else
    mdelay 10000 ;;
    emit LocalIrqSave ;;
    p <- _rdmsr 0x80000024 ;;
    let (hi, lo) := p in
    let lo := Z.land lo (Z.lnot (Z.shiftl 1 10)) in
    _wrmsr 0x80000024 hi lo ;;
    p <- _rdmsr 0x80000025 ;;
    let (hi, lo) := p in
    let lo := Z.land lo (Z.lnot (Z.shiftl 1 10)) in
    _wrmsr 0x80000025 hi lo ;;
    p <- _rdmsr 0x80000023 ;;
    let (hi, lo) := p in
    let lo := Z.lor lo (Z.shiftl 0x0a 0) in
    _wrmsr 0x80000023 hi lo ;;
    emit LocalIrqRestore ;;
    outl 0x00000800 (Z.lor gpio_base 0xA0) ;;
    outl 0x00000800 (Z.lor gpio_base 0xA4) ;;
    outl 0x00000800 (Z.lor gpio_base 0xB8) ;;
    ret 0.

End Driver.

(** ** The driver's lifetime

    The states the statics can be in: as loaded, after the battery
    sub-driver has been set up or torn down, after the SCI line has been
    (re)initialised, after any interrupt, whatever the machine answers, and
    after any activity of the rest of the driver (backlight, hwmon, power
    management), which leaves these statics alone and only adds to the
    trace. *)

Inductive lifetime {hdr : Headers} : driver -> Prop :=
| lifetime_load : lifetime driver_load
| lifetime_bat_init : forall st,
    lifetime st -> lifetime (set_ac_bat_initialized 1 st)
| lifetime_bat_exit : forall st,
    lifetime st -> lifetime (set_ac_bat_initialized 0 st)
| lifetime_irq_init : forall hw st,
    lifetime st -> lifetime (snd (sci_irq_init hw st))
| lifetime_irq : forall hw irq st,
    lifetime st -> lifetime (snd (sci_irq_handler hw irq st))
| lifetime_other : forall e st,
    lifetime st -> lifetime (log e st).

(** An interrupt that reaches the switch-video-mode handler with the CRT
    connected: it is the SCI line, the query does not fail, the event number
    is in range and selects the video mode case of the dispatcher (the case
    of [EVENT_LID] comes first in its [switch]), and the detect register,
    read by the handler right after the event number, is not [OFF]. *)
Definition switches {hdr : Headers} (hw : Hardware) (irq : Z) (st : driver)
  : Prop :=
  let r := int_of (hw_ec_query_event_num hw (trace st)) in
  let event :=
    int_of (hw_ec_get_event_num hw (trace st ++ [EcQueryEventNum r])) in
  irq = SCI_IRQ_NUM /\
  0 <= r /\
  EVENT_START <= event <= EVENT_END /\
  event <> EVENT_LID /\
  event = EVENT_SWITCHVIDEOMODE /\
  u8_of (hw_ec_read hw
           ((trace st ++ [EcQueryEventNum r]) ++ [EcGetEventNum event])
           REG_CRT_DETECT) <> OFF.

(** The part of the lifetime that comes before the first such interrupt. *)
Inductive before_first_switch {hdr : Headers} : driver -> Prop :=
| before_load : before_first_switch driver_load
| before_bat_init : forall st,
    before_first_switch st -> before_first_switch (set_ac_bat_initialized 1 st)
| before_bat_exit : forall st,
    before_first_switch st -> before_first_switch (set_ac_bat_initialized 0 st)
| before_irq_init : forall hw st,
    before_first_switch st -> before_first_switch (snd (sci_irq_init hw st))
| before_irq : forall hw irq st,
    before_first_switch st ->
    ~ switches hw irq st ->
    before_first_switch (snd (sci_irq_handler hw irq st))
| before_other : forall e st,
    before_first_switch st -> before_first_switch (log e st).

(** Consecutive events handed to the dispatcher. *)
Fixpoint do_event_actions {hdr : Headers} (hw : Hardware) (events : list Z)
  (st : driver) : driver :=
  match events with
  | [] => st
  | event :: rest => do_event_actions hw rest (snd (do_event_action hw event st))
  end.

(** ** The version comparison, as the specification words it

    "String compare, case-insensitive, first 64 bytes": the bytes of each
    string up to its terminator, cut to the first [n], folded to one case,
    and ordered lexicographically (a proper prefix comes first). *)

Fixpoint c_bytes (s : string) : list ascii :=
  match s with
  | EmptyString => []
  | String c t => if is_nul c then [] else c :: c_bytes t
  end.

Fixpoint lex_ltb (a b : list Z) : bool :=
  match a, b with
  | _, [] => false
  | [], _ :: _ => true
  | x :: a', y :: b' => (x <? y) || ((x =? y) && lex_ltb a' b')
  end.

Definition folded {hdr : Headers} (n : nat) (s : string) : list Z :=
  map (fun c => uchar (tolower c)) (firstn n (c_bytes s)).

Definition caseless_lt_spec {hdr : Headers} (n : nat) (s1 s2 : string) : bool :=
  lex_ltb (folded n s1) (folded n s2).

(** ** The four positions of the video output rotation *)

Inductive toggle_cycle : Type := both_on | crt_only | both_off | lcd_only.

(** The (LCD, CRT) pair of a position. *)
Definition outputs (p : toggle_cycle) : Z * Z :=
  match p with
  | both_on => (ON, ON)
  | crt_only => (OFF, ON)
  | both_off => (OFF, OFF)
  | lcd_only => (ON, OFF)
  end.

(** The state in which a handler invocation that found the CRT connected
    leaves the driver when it lands on position [p] with index [k]: the
    detect register has been read, the index stored, the pair applied. *)
Definition switched {hdr : Headers} (hw : Hardware) (k : Z) (p : toggle_cycle)
  (st : driver) : driver :=
  snd (yeeloong_vo_set hw (fst (outputs p)) (snd (outputs p))
         (set_video_output_status k (snd (ec_read hw REG_CRT_DETECT st)))).

(** The position the handler lands on when it stores index [k]. *)
Definition position (k : Z) : toggle_cycle :=
  if k =? 1 then both_on
  else if k =? 2 then crt_only
  else if k =? 3 then both_off
  else lcd_only.

(** ** An assignment of the parameters

    Values on which the model can be run; the theorems do not depend on
    them. *)

Definition ascii_tolower (c : ascii) : ascii :=
  let n := N_of_ascii c in
  if ((65 <=? n) && (n <=? 90))%N then ascii_of_N (n + 32) else c.

Definition lemote2f : Headers :=
  {| REG_CRT_DETECT := 0xF4AD;
     REG_CAMERA_STATUS := 0xF46A;
     REG_CAMERA_CONTROL := 0xF7B7;
     REG_LID_DETECT := 0xF4BD;
     REG_USB2_FLAG := 0xF465;
     REG_USB0_FLAG := 0xF461;
     REG_DISPLAY_LCD := 0xF79F;
     REG_AUDIO_MUTE := 0xF4E7;
     REG_DISPLAY_BRIGHTNESS := 0xF4F5;
     REG_AUDIO_VOLUME := 0xF46C;
     EVENT_LID := 0x23;
     EVENT_SWITCHVIDEOMODE := 0x24;
     EVENT_SLEEP := 0x25;
     EVENT_CRT_DETECT := 0x27;
     EVENT_CAMERA := 0x28;
     EVENT_USB_OC2 := 0x29;
     EVENT_USB_OC0 := 0x2A;
     EVENT_DISPLAY_TOGGLE := 0x2B;
     EVENT_AUDIO_MUTE := 0x2C;
     EVENT_DISPLAY_BRIGHTNESS := 0x2D;
     EVENT_AC_BAT := 0x2E;
     EVENT_AUDIO_VOLUME := 0x2F;
     EVENT_WLAN := 0x30;
     EVENT_START := 0x23;
     EVENT_END := 0x31;
     SCI_IRQ_NUM := 0x0A;
     DIVIL_MSR_REG_DIVIL_LBAR_GPIO := 0x5140000C;
     SW_LID := 0;
     KEY_CAMERA := 212;
     KEY_SLEEP := 142;
     KEY_DISPLAYTOGGLE := 431;
     KEY_SWITCHVIDEOMODE := 227;
     KEY_MUTE := 113;
     KEY_WLAN := 238;
     KEY_BRIGHTNESSUP := 225;
     KEY_BRIGHTNESSDOWN := 224;
     KEY_VOLUMEUP := 115;
     KEY_VOLUMEDOWN := 114;
     tolower := ascii_tolower |}.

(** A machine that answers every register and port read with [value], every
    event query with [query], then [event], and runs EC firmware [ver]. *)
Definition steady_hw (value query event : Z) (ver : string) : Hardware :=
  {| hw_ec_read := fun _ _ => value;
     hw_ec_query_event_num := fun _ => query;
     hw_ec_get_event_num := fun _ => event;
     hw_inb := fun _ _ => value;
     hw_rdmsr := fun _ _ => (0, 0xB000);
     ec_kb3310b_ver := ver |}.

(** ** Predicates on the driver state *)

(** A computation is [stable] for a property of the driver state when it
    leaves the property standing. *)
Definition stable {A : Type} (P : driver -> Prop) (c : M A) : Prop :=
  forall st, P st -> P (snd (c st)).

Definition in_rotation (st : driver) : Prop :=
  0 <= video_output_status st <= 4.

(** * The other sub-drivers

    The backlight, AC and battery, hwmon and power management parts of the
    file, in as far as they talk to the EC and the display outputs. *)

(** ** More C integer types *)

Definition s8_of (z : Z) : Z := (z + 2 ^ 7) mod 2 ^ 8 - 2 ^ 7.
Definition s16_of (z : Z) : Z := (z + 2 ^ 15) mod 2 ^ 16 - 2 ^ 15.

(** C value of a [bool]. *)
Definition int_of_bool (b : bool) : Z := if b then 1 else 0.

(** Modelled from the spec: [clamp_val] of [linux/kernel.h] is not part of
    this file (the file includes the header "for clamp_val()"); it is the
    value-clamping the spec mentions, [val] brought into [[lo, hi]], compared
    in the type of [val], to which the callers below convert first. *)
Definition clamp_val (val lo hi : Z) : Z := Z.min (Z.max val lo) hi.

(** ** Constants of the headers the other sub-drivers use

    EC registers and flags of [ec_kb3310b.h], values of [power_supply.h],
    [fb.h] and [errno.h], taken as parameters. *)

Class SubdriverHeaders : Type := {
  FB_BLANK_UNBLANK : Z;
  EINVAL : Z;
  EFAULT : Z;
  REG_BAT_POWER : Z;
  BIT_BAT_POWER_ACIN : Z;
  REG_BAT_STATUS : Z;
  BIT_BAT_STATUS_IN : Z;
  BIT_BAT_STATUS_DESTROY : Z;
  BIT_BAT_STATUS_LOW : Z;
  BIT_BAT_STATUS_FULL : Z;
  REG_BAT_TEMPERATURE_HIGH : Z;
  REG_BAT_TEMPERATURE_LOW : Z;
  REG_BAT_CURRENT_HIGH : Z;
  REG_BAT_CURRENT_LOW : Z;
  REG_BAT_VOLTAGE_HIGH : Z;
  REG_BAT_VOLTAGE_LOW : Z;
  REG_BAT_DESIGN_VOL_HIGH : Z;
  REG_BAT_DESIGN_VOL_LOW : Z;
  REG_BAT_DESIGN_CAP_HIGH : Z;
  REG_BAT_DESIGN_CAP_LOW : Z;
  REG_BAT_FULLCHG_CAP_HIGH : Z;
  REG_BAT_FULLCHG_CAP_LOW : Z;
  REG_BAT_RELATIVE_CAP_HIGH : Z;
  REG_BAT_RELATIVE_CAP_LOW : Z;
  REG_BAT_VENDOR : Z;
  FLAG_BAT_VENDOR_SANYO : Z;
  REG_BAT_CHARGE : Z;
  FLAG_BAT_CHARGE_DISCHARGE : Z;
  FLAG_BAT_CHARGE_CHARGE : Z;
  REG_BAT_CHARGE_STATUS : Z;
  BIT_BAT_CHARGE_STATUS_OVERTEMP : Z;
  POWER_SUPPLY_CAPACITY_LEVEL_UNKNOWN : Z;
  POWER_SUPPLY_CAPACITY_LEVEL_CRITICAL : Z;
  POWER_SUPPLY_CAPACITY_LEVEL_LOW : Z;
  POWER_SUPPLY_CAPACITY_LEVEL_NORMAL : Z;
  POWER_SUPPLY_CAPACITY_LEVEL_HIGH : Z;
  POWER_SUPPLY_CAPACITY_LEVEL_FULL : Z;
  POWER_SUPPLY_STATUS_CHARGING : Z;
  POWER_SUPPLY_STATUS_DISCHARGING : Z;
  POWER_SUPPLY_STATUS_NOT_CHARGING : Z;
  POWER_SUPPLY_HEALTH_UNKNOWN : Z;
  POWER_SUPPLY_HEALTH_GOOD : Z;
  POWER_SUPPLY_HEALTH_OVERHEAT : Z;
  POWER_SUPPLY_HEALTH_DEAD : Z;
  REG_FAN_SPEED_LEVEL : Z;
  REG_FAN_AUTO_MAN_SWITCH : Z;
  BIT_FAN_MANUAL : Z;
  BIT_FAN_AUTO : Z;
  REG_FAN_CONTROL : Z;
  REG_FAN_SPEED_HIGH : Z;
  REG_FAN_SPEED_LOW : Z;
  FAN_SPEED_DIVIDER : Z;
  REG_TEMPERATURE_VALUE : Z;
  REG_WLAN : Z;
  BIT_WLAN_ON : Z;
  BIT_WLAN_OFF : Z;
  REG_USB1_FLAG : Z
}.

(** [enum power_supply_property]: the members the file names, and any
    other. *)
Inductive power_supply_property : Type :=
| POWER_SUPPLY_PROP_STATUS
| POWER_SUPPLY_PROP_HEALTH
| POWER_SUPPLY_PROP_PRESENT
| POWER_SUPPLY_PROP_ONLINE
| POWER_SUPPLY_PROP_VOLTAGE_MAX_DESIGN
| POWER_SUPPLY_PROP_VOLTAGE_NOW
| POWER_SUPPLY_PROP_CURRENT_NOW
| POWER_SUPPLY_PROP_CHARGE_FULL_DESIGN
| POWER_SUPPLY_PROP_CHARGE_FULL
| POWER_SUPPLY_PROP_CHARGE_NOW
| POWER_SUPPLY_PROP_CAPACITY
| POWER_SUPPLY_PROP_CAPACITY_LEVEL
| POWER_SUPPLY_PROP_TEMP
| POWER_SUPPLY_PROP_TIME_TO_EMPTY_NOW
| POWER_SUPPLY_PROP_MANUFACTURER
| POWER_SUPPLY_PROP_other (n : nat).

(** [union power_supply_propval], as far as the file fills it. *)
Inductive power_supply_propval : Type :=
| intval (v : Z)
| strval (s : string).

(** The fields of [struct backlight_properties] the file reads. *)
Record backlight_properties : Type := {
  brightness : Z;
  power : Z;
  fb_blank : Z
}.

Definition MAX_BRIGHTNESS : Z := 8.
Definition MIN_FAN_SPEED : Z := 0.
Definition MAX_FAN_SPEED : Z := 3.
Definition BAT_CAP_CRITICAL : Z := 5.
Definition BAT_CAP_HIGH : Z := 95.

(** Two operands whose evaluation C leaves unsequenced: [left_first] is the
    compiler's choice. *)
Definition operands {A B : Type} (left_first : bool) (l : M A) (r : M B)
  : M (A * B) :=
  if left_first
  then a <- l ;; b <- r ;; ret (a, b)
  else b <- r ;; a <- l ;; ret (a, b).

Section Subdrivers.

Context {hdr : Headers} {sub : SubdriverHeaders}.
Variable hw : Hardware.
Variable left_first : bool.

(** ** Backlight sub-driver

    The function-static [old_level] of [yeeloong_set_brightness] is handed
    in and handed back next to the return value. *)

Definition yeeloong_set_brightness (bd : backlight_properties) (old_level : Z)
  : M (Z * Z) :=
  let level :=
    u32_of (if (fb_blank bd =? FB_BLANK_UNBLANK)
               && (power bd =? FB_BLANK_UNBLANK)
            then brightness bd else 0) in
  let level := clamp_val level 0 MAX_BRIGHTNESS in
  if negb (old_level =? level) then
    current_level <- ec_read hw REG_DISPLAY_BRIGHTNESS ;;
    (if old_level =? current_level
     then ec_write REG_DISPLAY_BRIGHTNESS level
     else ret tt) ;;
    ret (0, level)
  else ret (0, old_level).

Definition yeeloong_get_brightness : M Z :=
  ec_read hw REG_DISPLAY_BRIGHTNESS.

(** ** AC and battery sub-driver *)

Definition is_ac_in : M bool :=
  v <- ec_read hw REG_BAT_POWER ;;
  ret (truthy (Z.land v BIT_BAT_POWER_ACIN)).

Definition yeeloong_get_ac_props (psp : power_supply_property)
  : M (Z * option power_supply_propval) :=
  match psp with
  | POWER_SUPPLY_PROP_ONLINE =>
      b <- is_ac_in ;;
      ret (0, Some (intval (int_of_bool b)))
  | _ => ret (- EINVAL, None)
  end.

(** The macro [get_bat_info(type)], on the two registers of [type]. *)
Definition get_bat_info (reg_high reg_low : Z) : M Z :=
  p <- operands left_first (ec_read hw reg_high) (ec_read hw reg_low) ;;
  ret (Z.lor (Z.shiftl (fst p) 8) (snd p)).

Definition is_bat_in : M bool :=
  v <- ec_read hw REG_BAT_STATUS ;;
  ret (truthy (Z.land v BIT_BAT_STATUS_IN)).

Definition get_bat_status : M Z := ec_read hw REG_BAT_STATUS.

Definition get_battery_temp : M Z :=
  value <- get_bat_info REG_BAT_TEMPERATURE_HIGH REG_BAT_TEMPERATURE_LOW ;;
  ret (value * 1000).

Definition get_battery_current : M Z :=
  value <- get_bat_info REG_BAT_CURRENT_HIGH REG_BAT_CURRENT_LOW ;;
  let value := s16_of value in
  ret (- value).

Definition get_battery_voltage : M Z :=
  get_bat_info REG_BAT_VOLTAGE_HIGH REG_BAT_VOLTAGE_LOW.

Definition get_manufacturer : M string :=
  v <- ec_read hw REG_BAT_VENDOR ;;
  ret (if v =? FLAG_BAT_VENDOR_SANYO then "SANYO"%string
       else "SIMPLO"%string).

Definition yeeloong_get_bat_props (psp : power_supply_property)
  : M (Z * option power_supply_propval) :=
  match psp with
  | POWER_SUPPLY_PROP_VOLTAGE_MAX_DESIGN =>
      v <- get_bat_info REG_BAT_DESIGN_VOL_HIGH REG_BAT_DESIGN_VOL_LOW ;;
      ret (0, Some (intval (v * 1000)))
  | POWER_SUPPLY_PROP_CHARGE_FULL_DESIGN =>
      v <- get_bat_info REG_BAT_DESIGN_CAP_HIGH REG_BAT_DESIGN_CAP_LOW ;;
      ret (0, Some (intval (v * 1000)))
  | POWER_SUPPLY_PROP_CHARGE_FULL =>
      v <- get_bat_info REG_BAT_FULLCHG_CAP_HIGH REG_BAT_FULLCHG_CAP_LOW ;;
      ret (0, Some (intval (v * 1000)))
  | POWER_SUPPLY_PROP_MANUFACTURER =>
      s <- get_manufacturer ;;
      ret (0, Some (strval s))
  | POWER_SUPPLY_PROP_PRESENT =>
      b <- is_bat_in ;;
      ret (0, Some (intval (int_of_bool b)))
  | POWER_SUPPLY_PROP_CURRENT_NOW =>
      b <- is_bat_in ;;
      if b then
        c <- get_battery_current ;;
        ret (0, Some (intval (c * 1000)))
      else ret (0, Some (intval 0))
  | POWER_SUPPLY_PROP_VOLTAGE_NOW =>
      b <- is_bat_in ;;
      if b then
        v <- get_battery_voltage ;;
        ret (0, Some (intval (v * 1000)))
      else ret (0, Some (intval 0))
  | POWER_SUPPLY_PROP_TEMP =>
      b <- is_bat_in ;;
      if b then
        t <- get_battery_temp ;;
        ret (0, Some (intval t))
      else ret (0, Some (intval 0))
  | POWER_SUPPLY_PROP_CAPACITY =>
      b <- is_bat_in ;;
      if b then
        c <- get_bat_info REG_BAT_RELATIVE_CAP_HIGH REG_BAT_RELATIVE_CAP_LOW ;;
        ret (0, Some (intval c))
      else ret (0, Some (intval 0))
  | POWER_SUPPLY_PROP_CAPACITY_LEVEL =>
      b <- is_bat_in ;;
      if negb b then ret (0, Some (intval POWER_SUPPLY_CAPACITY_LEVEL_UNKNOWN))
      else
        status <- get_bat_status ;;
        if truthy (Z.land status BIT_BAT_STATUS_DESTROY)
        then ret (0, Some (intval POWER_SUPPLY_CAPACITY_LEVEL_UNKNOWN))
        else if truthy (Z.land status BIT_BAT_STATUS_LOW)
        then ret (0, Some (intval POWER_SUPPLY_CAPACITY_LEVEL_LOW))
        else if truthy (Z.land status BIT_BAT_STATUS_FULL)
        then ret (0, Some (intval POWER_SUPPLY_CAPACITY_LEVEL_FULL))
        else
          curr_cap <- get_bat_info REG_BAT_RELATIVE_CAP_HIGH
                        REG_BAT_RELATIVE_CAP_LOW ;;
          if curr_cap >=? BAT_CAP_HIGH
          then ret (0, Some (intval POWER_SUPPLY_CAPACITY_LEVEL_HIGH))
          else if curr_cap <=? BAT_CAP_CRITICAL
          then ret (0, Some (intval POWER_SUPPLY_CAPACITY_LEVEL_CRITICAL))
          else ret (0, Some (intval POWER_SUPPLY_CAPACITY_LEVEL_NORMAL))
  | POWER_SUPPLY_PROP_TIME_TO_EMPTY_NOW =>
      b <- is_bat_in ;;
      if b then
        c <- get_bat_info REG_BAT_RELATIVE_CAP_HIGH REG_BAT_RELATIVE_CAP_LOW ;;
        ret (0, Some (intval ((c - 3) * 54 + 142)))
      else ret (0, Some (intval 0))
  | POWER_SUPPLY_PROP_STATUS =>
      charge <- ec_read hw REG_BAT_CHARGE ;;
      if truthy (Z.land charge FLAG_BAT_CHARGE_DISCHARGE)
      then ret (0, Some (intval POWER_SUPPLY_STATUS_DISCHARGING))
      else if truthy (Z.land charge FLAG_BAT_CHARGE_CHARGE)
      then ret (0, Some (intval POWER_SUPPLY_STATUS_CHARGING))
      else ret (0, Some (intval POWER_SUPPLY_STATUS_NOT_CHARGING))
  | POWER_SUPPLY_PROP_HEALTH =>
      b <- is_bat_in ;;
      if negb b then ret (0, Some (intval POWER_SUPPLY_HEALTH_UNKNOWN))
      else
        status <- get_bat_status ;;
        let health :=
          if truthy (Z.land status
                       (Z.lor BIT_BAT_STATUS_DESTROY BIT_BAT_STATUS_LOW))
          then POWER_SUPPLY_HEALTH_DEAD
          else POWER_SUPPLY_HEALTH_GOOD in
        charge_status <- ec_read hw REG_BAT_CHARGE_STATUS ;;
        let health :=
          if truthy (Z.land charge_status BIT_BAT_CHARGE_STATUS_OVERTEMP)
          then POWER_SUPPLY_HEALTH_OVERHEAT
          else health in
        ret (0, Some (intval health))
  | POWER_SUPPLY_PROP_CHARGE_NOW =>
      p <- operands left_first
             (get_bat_info REG_BAT_RELATIVE_CAP_HIGH REG_BAT_RELATIVE_CAP_LOW)
             (get_bat_info REG_BAT_FULLCHG_CAP_HIGH REG_BAT_FULLCHG_CAP_LOW) ;;
      ret (0, Some (intval (int_of (int_of (fst p * snd p) * 10))))
  | POWER_SUPPLY_PROP_ONLINE | POWER_SUPPLY_PROP_other _ =>
      ret (- EINVAL, None)
  end.

(** ** hwmon sub-driver *)

Definition get_fan_pwm_enable : M Z :=
  level <- ec_read hw REG_FAN_SPEED_LEVEL ;;
  mode <- ec_read hw REG_FAN_AUTO_MAN_SWITCH ;;
  if (level =? MAX_FAN_SPEED) && (mode =? BIT_FAN_MANUAL) then ret 0
  else if mode =? BIT_FAN_MANUAL then ret 1
  else ret 2.

Definition set_fan_pwm_enable (mode : Z) : M unit :=
  if mode =? 0 then
    ec_write REG_FAN_AUTO_MAN_SWITCH BIT_FAN_MANUAL ;;
    ec_write REG_FAN_SPEED_LEVEL MAX_FAN_SPEED
  else if mode =? 1 then ec_write REG_FAN_AUTO_MAN_SWITCH BIT_FAN_MANUAL
  else if mode =? 2 then ec_write REG_FAN_AUTO_MAN_SWITCH BIT_FAN_AUTO
  else ret tt.

Definition get_fan_pwm : M Z := ec_read hw REG_FAN_SPEED_LEVEL.

Definition set_fan_pwm (value : Z) : M unit :=
  mode <- ec_read hw REG_FAN_AUTO_MAN_SWITCH ;;
  if negb (mode =? BIT_FAN_MANUAL) then ret tt
  else
    let value := clamp_val value 0 3 in
    (if value >? 0 then ec_write REG_FAN_CONTROL ON else ret tt) ;;
    ec_write REG_FAN_SPEED_LEVEL value.

(** The division is undefined in C when the divisor is 0 (the kernel
    traps); the model then has no value to give. *)
Definition get_fan_rpm : M (option Z) :=
  p <- operands left_first
         (ec_read hw REG_FAN_SPEED_HIGH) (ec_read hw REG_FAN_SPEED_LOW) ;;
  let divisor := Z.lor (Z.shiftl (Z.land (fst p) 0x0f) 8) (snd p) in
  if divisor =? 0 then ret None
  else ret (Some (Z.quot FAN_SPEED_DIVIDER divisor)).

Definition get_cpu_temp : M Z :=
  value <- ec_read hw REG_TEMPERATURE_VALUE ;;
  let value := s8_of value in
  ret (value * 1000).

Definition get_cpu_temp_max : M Z := ret (60 * 1000).

Definition get_battery_temp_alarm : M Z :=
  v <- ec_read hw REG_BAT_CHARGE_STATUS ;;
  let status := Z.land v BIT_BAT_CHARGE_STATUS_OVERTEMP in
  ret (lnot (lnot status)).

(** ** Power management *)

Definition wlan_set (status : Z) : M unit :=
  if truthy status then ec_write REG_WLAN BIT_WLAN_ON
  else ec_write REG_WLAN BIT_WLAN_OFF.

Definition usb_ports_set (status : Z) : M unit :=
  let status := lnot (lnot status) in
  ec_write REG_USB0_FLAG status ;;
  ec_write REG_USB1_FLAG status ;;
  ec_write REG_USB2_FLAG status.

Definition yeeloong_suspend : M Z :=
  (if truthy (ec_version_before hw "EC_VER=PQ1D27")
   then display_vo_set hw LCD OFF
   else ret tt) ;;
  display_vo_set hw CRT OFF ;;
  usb_ports_set OFF ;;
  wlan_set OFF ;;
  ret 0.

Definition yeeloong_resume : M Z :=
  (if truthy (ec_version_before hw "EC_VER=PQ1D27")
   then display_vo_set hw LCD ON
   else ret tt) ;;
  display_vo_set hw CRT ON ;;
  usb_ports_set ON ;;
  wlan_set ON ;;
  r <- sci_irq_init hw ;;
  if truthy r then ret (- EFAULT) else ret 0.

End Subdrivers.

(** The property tables handed to the power-supply core. *)

Definition yeeloong_ac_props : list power_supply_property :=
  [POWER_SUPPLY_PROP_ONLINE].

Definition yeeloong_bat_props : list power_supply_property :=
  [POWER_SUPPLY_PROP_STATUS;
   POWER_SUPPLY_PROP_PRESENT;
   POWER_SUPPLY_PROP_VOLTAGE_MAX_DESIGN;
   POWER_SUPPLY_PROP_CHARGE_FULL_DESIGN;
   POWER_SUPPLY_PROP_CHARGE_FULL;
   POWER_SUPPLY_PROP_CHARGE_NOW;
   POWER_SUPPLY_PROP_CURRENT_NOW;
   POWER_SUPPLY_PROP_VOLTAGE_NOW;
   POWER_SUPPLY_PROP_HEALTH;
   POWER_SUPPLY_PROP_TIME_TO_EMPTY_NOW;
   POWER_SUPPLY_PROP_CAPACITY;
   POWER_SUPPLY_PROP_CAPACITY_LEVEL;
   POWER_SUPPLY_PROP_TEMP;
   POWER_SUPPLY_PROP_MANUFACTURER].

(** The last value the driver wrote to an EC register, if any. *)
Definition last_ec_write (history : list io_event) (reg : Z) : option Z :=
  fold_left
    (fun acc e =>
       match e with
       | EcWrite r v => if r =? reg then Some v else acc
       | _ => acc
       end)
    history None.

(** An EC register that keeps what the driver writes to it. *)
Definition ec_retains (hw : Hardware) (reg : Z) : Prop :=
  forall history v,
    last_ec_write history reg = Some v -> hw_ec_read hw history reg = v.

(** A machine whose EC registers all keep what is written to them and read
    [0] before; the rest as [steady_hw 0 0 0 ver]. *)
Definition register_file_hw (ver : string) : Hardware :=
  {| hw_ec_read := fun history reg =>
       match last_ec_write history reg with
       | Some v => v
       | None => 0
       end;
     hw_ec_query_event_num := fun _ => 0;
     hw_ec_get_event_num := fun _ => 0;
     hw_inb := fun _ _ => 0;
     hw_rdmsr := fun _ _ => (0, 0xB000);
     ec_kb3310b_ver := ver |}.

Definition lemote2f_sub : SubdriverHeaders :=
  {| FB_BLANK_UNBLANK := 0;
     EINVAL := 22;
     EFAULT := 14;
     REG_BAT_POWER := 0xF780;
     BIT_BAT_POWER_ACIN := 4;
     REG_BAT_STATUS := 0xF4B0;
     BIT_BAT_STATUS_IN := 1;
     BIT_BAT_STATUS_DESTROY := 4;
     BIT_BAT_STATUS_LOW := 32;
     BIT_BAT_STATUS_FULL := 2;
     REG_BAT_TEMPERATURE_HIGH := 0xF77C;
     REG_BAT_TEMPERATURE_LOW := 0xF77D;
     REG_BAT_CURRENT_HIGH := 0xF784;
     REG_BAT_CURRENT_LOW := 0xF785;
     REG_BAT_VOLTAGE_HIGH := 0xF786;
     REG_BAT_VOLTAGE_LOW := 0xF787;
     REG_BAT_DESIGN_VOL_HIGH := 0xF7A2;
     REG_BAT_DESIGN_VOL_LOW := 0xF7A3;
     REG_BAT_DESIGN_CAP_HIGH := 0xF77A;
     REG_BAT_DESIGN_CAP_LOW := 0xF77B;
     REG_BAT_FULLCHG_CAP_HIGH := 0xF780;
     REG_BAT_FULLCHG_CAP_LOW := 0xF781;
     REG_BAT_RELATIVE_CAP_HIGH := 0xF492;
     REG_BAT_RELATIVE_CAP_LOW := 0xF493;
     REG_BAT_VENDOR := 0xF4C4;
     FLAG_BAT_VENDOR_SANYO := 1;
     REG_BAT_CHARGE := 0xF4A2;
     FLAG_BAT_CHARGE_DISCHARGE := 1;
     FLAG_BAT_CHARGE_CHARGE := 2;
     REG_BAT_CHARGE_STATUS := 0xF4B1;
     BIT_BAT_CHARGE_STATUS_OVERTEMP := 4;
     POWER_SUPPLY_CAPACITY_LEVEL_UNKNOWN := 0;
     POWER_SUPPLY_CAPACITY_LEVEL_CRITICAL := 1;
     POWER_SUPPLY_CAPACITY_LEVEL_LOW := 2;
     POWER_SUPPLY_CAPACITY_LEVEL_NORMAL := 3;
     POWER_SUPPLY_CAPACITY_LEVEL_HIGH := 4;
     POWER_SUPPLY_CAPACITY_LEVEL_FULL := 5;
     POWER_SUPPLY_STATUS_CHARGING := 1;
     POWER_SUPPLY_STATUS_DISCHARGING := 2;
     POWER_SUPPLY_STATUS_NOT_CHARGING := 3;
     POWER_SUPPLY_HEALTH_UNKNOWN := 0;
     POWER_SUPPLY_HEALTH_GOOD := 1;
     POWER_SUPPLY_HEALTH_OVERHEAT := 2;
     POWER_SUPPLY_HEALTH_DEAD := 3;
     REG_FAN_SPEED_LEVEL := 0xF4CC;
     REG_FAN_AUTO_MAN_SWITCH := 0xF459;
     BIT_FAN_MANUAL := 1;
     BIT_FAN_AUTO := 0;
     REG_FAN_CONTROL := 0xF4D2;
     REG_FAN_SPEED_HIGH := 0xFE22;
     REG_FAN_SPEED_LOW := 0xFE23;
     FAN_SPEED_DIVIDER := 480000;
     REG_TEMPERATURE_VALUE := 0xF458;
     REG_WLAN := 0xF4FA;
     BIT_WLAN_ON := 1;
     BIT_WLAN_OFF := 0;
     REG_USB1_FLAG := 0xF463 |}.

(** ** The event numbers the file names

    They are members of one enumeration of [ec_kb3310b.h]; as scan codes
    ([unsigned int]) they are pairwise distinct. *)

Definition hotkey_events {hdr : Headers} : list Z :=
  [EVENT_LID; EVENT_SWITCHVIDEOMODE; EVENT_SLEEP; EVENT_CRT_DETECT;
   EVENT_CAMERA; EVENT_USB_OC2; EVENT_USB_OC0; EVENT_DISPLAY_TOGGLE;
   EVENT_AUDIO_MUTE; EVENT_DISPLAY_BRIGHTNESS; EVENT_AC_BAT;
   EVENT_AUDIO_VOLUME; EVENT_WLAN].

Definition events_distinct {hdr : Headers} : Prop :=
  NoDup (map u32_of hotkey_events).

(** The driver state after a run of effects. *)
Definition logs (events : list io_event) (st : driver) : driver :=
  fold_left (fun s e => log e s) events st.

(** Two driver states with the same statics; the traces may differ. *)
Definition same_statics (st st' : driver) : Prop :=
  video_output_status st' = video_output_status st /\
  old_brightness_status st' = old_brightness_status st /\
  old_volume_status st' = old_volume_status st /\
  ac_bat_initialized st' = ac_bat_initialized st.

(** * Properties *)

(** ** Integer conversions *)

Lemma u8_of_range (z : Z) : 0 <= u8_of z < 256.
Proof. unfold u8_of. change (2 ^ 8) with 256. apply Z.mod_pos_bound. lia. Qed.

Lemma u8_of_small (z : Z) : 0 <= z < 256 -> u8_of z = z.
Proof. intros H. unfold u8_of. change (2 ^ 8) with 256. now apply Z.mod_small. Qed.

Lemma int_of_small (z : Z) : - 2 ^ 31 <= z < 2 ^ 31 -> int_of z = z.
Proof.
  intros H. unfold int_of. rewrite Z.mod_small; lia.
Qed.

Lemma u8_of_lor (a b : Z) :
  0 <= a < 256 -> 0 <= b < 256 -> u8_of (Z.lor a b) = Z.lor a b.
Proof.
  intros Ha Hb. unfold u8_of.
  rewrite <- Z.land_ones by lia.
  rewrite Z.land_lor_distr_l, !Z.land_ones by lia.
  change (2 ^ 8) with 256. now rewrite !Z.mod_small.
Qed.

Lemma lnot_spec (z : Z) : (z = 0 -> lnot z = 1) /\ (z <> 0 -> lnot z = 0).
Proof.
  unfold lnot. destruct (Z.eqb_spec z 0); split; intros; congruence.
Qed.

Lemma high_bits_mod (k x : Z) :
  0 <= k ->
  (forall n, k <= n -> Z.testbit x n = false) ->
  x mod 2 ^ k = x.
Proof.
  intros Hk Hhigh. apply Z.bits_inj'. intros n Hn.
  rewrite Z.testbit_mod_pow2 by exact Hk.
  destruct (Z.ltb_spec n k) as [Hlt | Hge]; cbn [andb].
  - reflexivity.
  - symmetry. now apply Hhigh.
Qed.

Lemma mod_high_bits (k x n : Z) :
  0 <= k -> k <= n -> Z.testbit (x mod 2 ^ k) n = false.
Proof.
  intros Hk Hn. rewrite Z.testbit_mod_pow2 by exact Hk.
  destruct (Z.ltb_spec n k); [ lia | reflexivity ].
Qed.

Lemma u8_of_setbit (x n : Z) :
  0 <= n < 8 -> u8_of (Z.setbit (u8_of x) n) = Z.setbit (u8_of x) n.
Proof.
  intros Hn. unfold u8_of at 1. apply high_bits_mod; [ lia | ].
  intros m Hm. rewrite Z.setbit_neq by lia.
  unfold u8_of. apply mod_high_bits; lia.
Qed.

Lemma u8_of_clearbit (x n : Z) :
  u8_of (Z.clearbit (u8_of x) n) = Z.clearbit (u8_of x) n.
Proof.
  unfold u8_of at 1. apply high_bits_mod; [ lia | ].
  intros m Hm. rewrite Z.clearbit_eqb.
  unfold u8_of. rewrite mod_high_bits by lia. reflexivity.
Qed.


Lemma bind_eq {A B : Type} (c : M A) (k : A -> M B) (st : driver) :
  bind c k st = k (fst (c st)) (snd (c st)).
Proof. unfold bind. destruct (c st). reflexivity. Qed.

(** ** Frame reasoning *)

Lemma stable_ret {A : Type} (P : driver -> Prop) (a : A) : stable P (ret a).
Proof. intros st H. exact H. Qed.

Lemma stable_get {A : Type} (P : driver -> Prop) (f : driver -> A) :
  stable P (get f).
Proof. intros st H. exact H. Qed.

Lemma stable_bind {A B : Type} (P : driver -> Prop) (c : M A) (k : A -> M B) :
  stable P c -> (forall a, stable P (k a)) -> stable P (bind c k).
Proof.
  intros Hc Hk st H. unfold bind.
  specialize (Hc st H). destruct (c st) as [a st']. simpl in Hc.
  now apply Hk.
Qed.

Lemma stable_modify (P : driver -> Prop) (f : driver -> driver) :
  (forall st, P st -> P (f st)) -> stable P (modify f).
Proof. intros Hf st H. simpl. now apply Hf. Qed.

Create HintDb frame.

Ltac stable_step :=
  lazymatch goal with
  | |- stable _ (ret _) => apply stable_ret
  | |- stable _ (get _) => apply stable_get
  | |- stable _ (bind _ _) => apply stable_bind; [ | intros ? ]
  | |- stable _ (if ?b then _ else _) => destruct b
  | |- stable _ (match ?o with Some _ => _ | None => _ end) => destruct o
  | |- stable _ (let (_, _) := ?p in _) => destruct p
  end.

Section Frame.

Context {hdr : Headers}.
Variable hw : Hardware.
Variable P : driver -> Prop.
Hypothesis P_log : forall e st, P st -> P (log e st).

Lemma stable_emit (e : io_event) : stable P (emit e).
Proof. apply stable_modify. intros st. apply P_log. Qed.

Lemma stable_ec_read (reg : Z) : stable P (ec_read hw reg).
Proof. intros st H. simpl. now apply P_log. Qed.

Lemma stable_ec_write (reg value : Z) : stable P (ec_write reg value).
Proof. apply stable_emit. Qed.

Lemma stable_ec_query_event_num : stable P (ec_query_event_num hw).
Proof. intros st H. simpl. now apply P_log. Qed.

Lemma stable_ec_get_event_num : stable P (ec_get_event_num hw).
Proof. intros st H. simpl. now apply P_log. Qed.

Lemma stable_outb (value port : Z) : stable P (outb value port).
Proof. apply stable_emit. Qed.

Lemma stable_inb (port : Z) : stable P (inb hw port).
Proof. intros st H. simpl. now apply P_log. Qed.

Lemma stable_outl (value port : Z) : stable P (outl value port).
Proof. apply stable_emit. Qed.

Lemma stable_rdmsr (msr : Z) : stable P (_rdmsr hw msr).
Proof.
  intros st H. unfold _rdmsr.
  destruct (hw_rdmsr hw (trace st) msr). simpl. now apply P_log.
Qed.

Lemma stable_wrmsr (msr hi lo : Z) : stable P (_wrmsr msr hi lo).
Proof. apply stable_emit. Qed.

Lemma stable_mdelay (msecs : Z) : stable P (mdelay msecs).
Proof. apply stable_emit. Qed.

#[local] Hint Resolve stable_emit stable_ec_read stable_ec_write
  stable_ec_query_event_num stable_ec_get_event_num stable_outb stable_inb
  stable_outl stable_rdmsr stable_wrmsr stable_mdelay : frame.

Lemma stable_display_vo_set (display on : Z) :
  stable P (display_vo_set hw display on).
Proof. unfold display_vo_set. repeat stable_step; auto with frame. Qed.

Lemma stable_yeeloong_vo_set (lcd_status crt_status : Z) :
  stable P (yeeloong_vo_set hw lcd_status crt_status).
Proof.
  unfold yeeloong_vo_set. repeat stable_step; apply stable_display_vo_set.
Qed.

#[local] Hint Resolve stable_display_vo_set stable_yeeloong_vo_set : frame.

Lemma stable_report_lid_switch (status : Z) :
  stable P (report_lid_switch status).
Proof. unfold report_lid_switch. repeat stable_step; auto with frame. Qed.

Lemma stable_crt_detect_handler (status : Z) :
  stable P (crt_detect_handler hw status).
Proof. unfold crt_detect_handler. repeat stable_step; auto with frame. Qed.

Lemma stable_displaytoggle_handler (status : Z) :
  stable P (displaytoggle_handler hw status).
Proof. unfold displaytoggle_handler. repeat stable_step; auto with frame. Qed.

Lemma stable_camera_handler (status : Z) :
  stable P (camera_handler hw status).
Proof. unfold camera_handler. repeat stable_step; auto with frame. Qed.

Lemma stable_usb2_handler (status : Z) : stable P (usb2_handler status).
Proof. unfold usb2_handler. repeat stable_step; auto with frame. Qed.

Lemma stable_usb0_handler (status : Z) : stable P (usb0_handler status).
Proof. unfold usb0_handler. repeat stable_step; auto with frame. Qed.

Lemma stable_ac_bat_handler (status : Z) : stable P (ac_bat_handler status).
Proof. unfold ac_bat_handler. repeat stable_step; auto with frame. Qed.

Lemma stable_sci_irq_init : stable P (sci_irq_init hw).
Proof. unfold sci_irq_init. repeat stable_step; auto with frame. Qed.

#[local] Hint Resolve stable_report_lid_switch stable_crt_detect_handler
  stable_displaytoggle_handler stable_camera_handler stable_usb2_handler
  stable_usb0_handler stable_ac_bat_handler : frame.

Lemma stable_switchvideomode_handler (status : Z) :
  (forall v st, P st -> P (set_video_output_status v st)) ->
  stable P (switchvideomode_handler hw status).
Proof.
  intros Hset. unfold switchvideomode_handler.
  repeat stable_step; auto with frame; apply stable_modify; auto.
Qed.

Lemma stable_get_event_key_entry (event status : Z) :
  (event <> EVENT_DISPLAY_BRIGHTNESS \/
   forall v st, P st -> P (set_old_brightness_status v st)) ->
  (event <> EVENT_AUDIO_VOLUME \/
   forall v st, P st -> P (set_old_volume_status v st)) ->
  stable P (get_event_key_entry event status).
Proof.
  intros Hb Hv. unfold get_event_key_entry.
  destruct (sparse_keymap_entry_from_scancode event); [ | apply stable_ret ].
  destruct (Z.eqb_spec event EVENT_DISPLAY_BRIGHTNESS) as [Eb | _].
  - destruct Hb as [Hb | Hb]; [ contradiction | ].
    repeat stable_step. apply stable_modify; auto.
  - destruct (Z.eqb_spec event EVENT_AUDIO_VOLUME) as [Ev | _];
      [ | apply stable_ret ].
    destruct Hv as [Hv | Hv]; [ contradiction | ].
    repeat stable_step. apply stable_modify; auto.
Qed.

(** The dispatcher is stable as soon as the two stateful pieces it can
    reach are: the video mode handler and the key entry resolution. *)
Lemma stable_do_event_action (event : Z) :
  (forall status, stable P (switchvideomode_handler hw status)) ->
  (forall status, stable P (get_event_key_entry event status)) ->
  stable P (do_event_action hw event).
Proof.
  intros Hvideo Hkey. unfold do_event_action, event_binding.
  repeat match goal with
         | |- context [if ?a =? ?b then _ else _] =>
             lazymatch a with event => destruct (a =? b) end
         end;
    repeat stable_step; auto with frame.
Qed.

Lemma stable_sci_irq_handler (irq : Z) :
  (forall status, stable P (switchvideomode_handler hw status)) ->
  (forall event status, stable P (get_event_key_entry event status)) ->
  stable P (sci_irq_handler hw irq).
Proof.
  intros Hvideo Hkey. unfold sci_irq_handler.
  repeat stable_step; auto with frame.
  apply stable_do_event_action; auto.
Qed.

End Frame.

(** ** The video output rotation *)

Section VideoOutput.

Context {hdr : Headers}.
Variable hw : Hardware.

Lemma video_output_status_switched (k : Z) (p : toggle_cycle) (st : driver) :
  video_output_status (switched hw k p st) = k.
Proof.
  unfold switched.
  apply (stable_yeeloong_vo_set hw (fun s => video_output_status s = k)).
  - intros e s H. exact H.
  - reflexivity.
Qed.

(** One invocation with the CRT connected: the index moves to its
    successor, [4] being followed by [1], and the pair of the new position
    is applied. *)
Lemma switchvideomode_advance (status : Z) (st : driver) :
  u8_of (hw_ec_read hw (trace st) REG_CRT_DETECT) <> OFF ->
  0 <= video_output_status st <= 4 ->
  let k := if video_output_status st =? 4 then 1
           else video_output_status st + 1 in
  switchvideomode_handler hw status st = (k, switched hw k (position k) st).
Proof.
  intros Hcrt Hv.
  unfold switchvideomode_handler, switched, bind, ec_read.
  destruct (Z.eqb_spec (u8_of (hw_ec_read hw (trace st) REG_CRT_DETECT)) OFF)
    as [E | _]; [ contradiction | ].
  unfold get, modify. cbn [video_output_status log set_video_output_status].
  rewrite int_of_small by lia.
  assert (Hcases : video_output_status st = 0 \/ video_output_status st = 1 \/
                   video_output_status st = 2 \/ video_output_status st = 3 \/
                   video_output_status st = 4) by lia.
  destruct Hcases as [E | [E | [E | [E | E]]]]; rewrite E; reflexivity.
Qed.




(** C5.  When the CRT-presence register reads "not detected", the handler
    returns at once: the only thing that happened is the register read, so
    the rotation index is the one before the call and no port of the display
    outputs has been touched. *)
Theorem switchvideomode_handler_no_crt (status : Z) (st : driver) :
  u8_of (hw_ec_read hw (trace st) REG_CRT_DETECT) = OFF ->
  switchvideomode_handler hw status st
    = (0, log (EcRead REG_CRT_DETECT OFF) st) /\
  video_output_status (snd (switchvideomode_handler hw status st))
    = video_output_status st /\
  trace (snd (switchvideomode_handler hw status st))
    = trace st ++ [EcRead REG_CRT_DETECT OFF].
Proof.
  intros Hcrt.
  assert (E : switchvideomode_handler hw status st
              = (0, log (EcRead REG_CRT_DETECT OFF) st)).
  { unfold switchvideomode_handler, bind, ec_read. rewrite Hcrt. reflexivity. }
  rewrite E. repeat split.
Qed.

End VideoOutput.

(** ** Handlers with a side effect on the EC or the input layer *)

Section Handlers.

Context {hdr : Headers}.
Variable hw : Hardware.

(** C7.  Whatever the input status, the camera handler reads the EC
    camera-control register and writes it back with bit 1 set on top of the
    value read, touches nothing else, and returns the input status. *)
Theorem camera_handler_sets_bit_1 (status : Z) (st : driver) :
  let value := u8_of (hw_ec_read hw (trace st) REG_CAMERA_CONTROL) in
  camera_handler hw status st
    = (status,
       log (EcWrite REG_CAMERA_CONTROL (Z.lor value 2))
         (log (EcRead REG_CAMERA_CONTROL value) st)) /\
  trace (snd (camera_handler hw status st))
    = trace st ++ [EcRead REG_CAMERA_CONTROL value;
                   EcWrite REG_CAMERA_CONTROL (Z.lor value 2)] /\
  Z.testbit (Z.lor value 2) 1 = true /\
  (forall n, n <> 1 -> Z.testbit (Z.lor value 2) n = Z.testbit value n) /\
  fst (camera_handler hw status st) = status.
Proof.
  intros value.
  assert (E : camera_handler hw status st
              = (status,
                 log (EcWrite REG_CAMERA_CONTROL (Z.lor value 2))
                   (log (EcRead REG_CAMERA_CONTROL value) st))).
  { unfold camera_handler, bind, ec_read, ec_write, emit, modify, ret.
    fold value. change (Z.shiftl 1 1) with 2.
    rewrite u8_of_lor; [ reflexivity | apply u8_of_range | lia ]. }
  rewrite E. repeat split.
  - cbn [snd trace log]. now rewrite <- app_assoc.
  - rewrite Z.lor_spec. change (Z.testbit 2 1) with true. apply orb_true_r.
  - intros n Hn. rewrite Z.lor_spec.
    replace (Z.testbit 2 n) with false; [ apply orb_false_r | ].
    symmetry. change 2 with (2 ^ 1). destruct (Z_lt_le_dec n 0).
    + now apply Z.testbit_neg_r.
    + apply Z.pow2_bits_false. lia.
Qed.

Lemma scan_lid : sparse_keymap_entry_from_scancode EVENT_LID = Some 0%nat.
Proof.
  unfold sparse_keymap_entry_from_scancode, yeeloong_keymap.
  cbn [scan_keymap ke_type ke_code is_KE_END]. now rewrite Z.eqb_refl.
Qed.

(** C8.  For the lid event the dispatcher reads the lid register and hands
    the input layer the logical negation of what it read, then the
    synchronisation signal: a raw 1 (closed) is reported as 0, a raw 0 as 1.
    [report_lid_switch] does so for any status it is given. *)
Theorem lid_event_reports_negation (st : driver) :
  REG_LID_DETECT <> 0 ->
  EVENT_LID <> EVENT_DISPLAY_BRIGHTNESS ->
  EVENT_LID <> EVENT_AUDIO_VOLUME ->
  let raw := u8_of (hw_ec_read hw (trace st) REG_LID_DETECT) in
  do_event_action hw EVENT_LID st
    = (tt, log InputSync
             (log (InputReportSwitch SW_LID (lnot raw))
                (log (EcRead REG_LID_DETECT raw) st))) /\
  (raw = 1 -> lnot raw = 0) /\
  (raw = 0 -> lnot raw = 1) /\
  (forall status s,
      report_lid_switch status s
        = (status, log InputSync
                     (log (InputReportSwitch SW_LID (lnot status)) s))) /\
  lnot 1 = 0 /\ lnot 0 = 1.
Proof.
  intros Hreg Hb Hv raw. repeat split.
  - unfold do_event_action, event_binding. rewrite Z.eqb_refl.
    destruct (Z.eqb_spec REG_LID_DETECT 0) as [E | _]; [ contradiction | ].
    unfold bind, ec_read. fold raw. cbn [negb].
    unfold get_event_key_entry. rewrite scan_lid.
    destruct (Z.eqb_spec EVENT_LID EVENT_DISPLAY_BRIGHTNESS) as [E | _];
      [ contradiction | ].
    destruct (Z.eqb_spec EVENT_LID EVENT_AUDIO_VOLUME) as [E | _];
      [ contradiction | ].
    unfold ret, key_at, yeeloong_keymap. cbn [nth ke_keycode].
    rewrite Z.eqb_refl. reflexivity.
  - intros E. rewrite E. reflexivity.
  - intros E. rewrite E. reflexivity.
Qed.

End Handlers.

(** ** The interrupt routine *)

Section Interrupt.

Context {hdr : Headers}.
Variable hw : Hardware.

(** C3.  On the SCI line, after a query that did not fail, an event number
    outside [[EVENT_START, EVENT_END]] makes the interrupt routine answer
    [IRQ_NONE] with nothing done beyond the query and the read of the event
    number: the dispatcher is not entered, the statics are untouched and
    nothing is reported. *)
Theorem sci_irq_handler_out_of_range (st : driver) :
  let r := int_of (hw_ec_query_event_num hw (trace st)) in
  let event :=
    int_of (hw_ec_get_event_num hw (trace st ++ [EcQueryEventNum r])) in
  0 <= r ->
  event < EVENT_START \/ EVENT_END < event ->
  sci_irq_handler hw SCI_IRQ_NUM st
    = (IRQ_NONE, log (EcGetEventNum event) (log (EcQueryEventNum r) st)) /\
  trace (snd (sci_irq_handler hw SCI_IRQ_NUM st))
    = trace st ++ [EcQueryEventNum r; EcGetEventNum event] /\
  video_output_status (snd (sci_irq_handler hw SCI_IRQ_NUM st))
    = video_output_status st /\
  old_brightness_status (snd (sci_irq_handler hw SCI_IRQ_NUM st))
    = old_brightness_status st /\
  old_volume_status (snd (sci_irq_handler hw SCI_IRQ_NUM st))
    = old_volume_status st.
Proof.
  intros r event Hr Hevent.
  assert (E : sci_irq_handler hw SCI_IRQ_NUM st
              = (IRQ_NONE,
                 log (EcGetEventNum event) (log (EcQueryEventNum r) st))).
  { unfold sci_irq_handler. rewrite Z.eqb_refl. cbn [negb].
    unfold bind, ec_query_event_num. fold r.
    destruct (Z.ltb_spec r 0) as [Hlt | _]; [ lia | ].
    unfold ec_get_event_num. cbn [trace log]. fold event.
    replace ((event <? EVENT_START) || (event >? EVENT_END)) with true;
      [ reflexivity | ].
    symmetry. apply orb_true_iff.
    destruct Hevent as [H | H]; [ left | right ].
    - now apply Z.ltb_lt.
    - apply Z.gtb_lt. exact H. }
  rewrite E. repeat split.
  cbn [snd trace log]. now rewrite <- app_assoc.
Qed.

End Interrupt.

(** ** Key entry resolution: the direction of brightness and volume *)

Section KeyEntry.

Context {hdr : Headers}.

Ltac scan_table :=
  unfold sparse_keymap_entry_from_scancode, yeeloong_keymap;
  cbn [scan_keymap ke_type ke_code is_KE_END];
  repeat match goal with
         | |- context [u32_of ?a =? u32_of ?a] => rewrite (Z.eqb_refl (u32_of a))
         | |- context [if u32_of ?a =? u32_of ?b then _ else _] =>
             destruct (u32_of a =? u32_of b)
         end.

Lemma scan_brightness :
  exists base,
    sparse_keymap_entry_from_scancode EVENT_DISPLAY_BRIGHTNESS = Some base /\
    (S base < List.length yeeloong_keymap)%nat.
Proof. scan_table; eexists; (split; [ reflexivity | cbn; lia ]). Qed.

Lemma scan_volume :
  exists base,
    sparse_keymap_entry_from_scancode EVENT_AUDIO_VOLUME = Some base /\
    (S base < List.length yeeloong_keymap)%nat.
Proof. scan_table; eexists; (split; [ reflexivity | cbn; lia ]). Qed.

Lemma decrease_spec (status old : Z) :
  (status =? 0) || (status <? old) = true <-> status = 0 \/ status < old.
Proof. rewrite orb_true_iff, Z.eqb_eq, Z.ltb_lt. reflexivity. Qed.

Lemma get_event_key_entry_brightness (status : Z) (st : driver) (base : nat) :
  sparse_keymap_entry_from_scancode EVENT_DISPLAY_BRIGHTNESS = Some base ->
  get_event_key_entry EVENT_DISPLAY_BRIGHTNESS status st
    = (Some (if (status =? 0) || (status <? old_brightness_status st)
             then S base else base),
       set_old_brightness_status status st).
Proof.
  intros Hscan. unfold get_event_key_entry. rewrite Hscan, Z.eqb_refl.
  reflexivity.
Qed.

Lemma get_event_key_entry_volume (status : Z) (st : driver) (base : nat) :
  EVENT_AUDIO_VOLUME <> EVENT_DISPLAY_BRIGHTNESS ->
  sparse_keymap_entry_from_scancode EVENT_AUDIO_VOLUME = Some base ->
  get_event_key_entry EVENT_AUDIO_VOLUME status st
    = (Some (if (status =? 0) || (status <? old_volume_status st)
             then S base else base),
       set_old_volume_status status st).
Proof.
  intros Hne Hscan. unfold get_event_key_entry. rewrite Hscan.
  destruct (Z.eqb_spec EVENT_AUDIO_VOLUME EVENT_DISPLAY_BRIGHTNESS) as [E | _];
    [ contradiction | ].
  rewrite Z.eqb_refl. reflexivity.
Qed.

Lemma direction_iff (b : bool) (base : nat) (Q : Prop) :
  (b = true <-> Q) ->
  (Some (if b then S base else base) = Some (S base) <-> Q) /\
  (Some (if b then S base else base) = Some base <-> ~ Q).
Proof.
  intros Hb. destruct b; split; split; intros H.
  - now apply Hb.
  - reflexivity.
  - injection H as H. lia.
  - exfalso. apply H. now apply Hb.
  - injection H as H. lia.
  - apply Hb in H. discriminate.
  - intros HQ. apply Hb in HQ. discriminate.
  - reflexivity.
Qed.

(** C2.  On each axis, brightness and volume, the key entry resolved for
    the event is the one past the base entry of the keymap (decrease)
    exactly when the sample is 0 or strictly below the stored last sample of
    that axis, and the base entry (increase) exactly otherwise; in both
    cases the stored last sample becomes the sample, and nothing else
    changes. *)
Theorem get_event_key_entry_direction (status : Z) (st : driver) :
  EVENT_AUDIO_VOLUME <> EVENT_DISPLAY_BRIGHTNESS ->
  (exists base,
      sparse_keymap_entry_from_scancode EVENT_DISPLAY_BRIGHTNESS = Some base /\
      (S base < List.length yeeloong_keymap)%nat /\
      let r := get_event_key_entry EVENT_DISPLAY_BRIGHTNESS status st in
      (fst r = Some (S base)
       <-> status = 0 \/ status < old_brightness_status st) /\
      (fst r = Some base
       <-> ~ (status = 0 \/ status < old_brightness_status st)) /\
      snd r = set_old_brightness_status status st /\
      old_brightness_status (snd r) = status) /\
  (exists base,
      sparse_keymap_entry_from_scancode EVENT_AUDIO_VOLUME = Some base /\
      (S base < List.length yeeloong_keymap)%nat /\
      let r := get_event_key_entry EVENT_AUDIO_VOLUME status st in
      (fst r = Some (S base)
       <-> status = 0 \/ status < old_volume_status st) /\
      (fst r = Some base
       <-> ~ (status = 0 \/ status < old_volume_status st)) /\
      snd r = set_old_volume_status status st /\
      old_volume_status (snd r) = status).
Proof.
  intros Hne. split.
  - destruct scan_brightness as [base [Hscan Hlen]].
    exists base. split; [ exact Hscan | ]. split; [ exact Hlen | ].
    rewrite (get_event_key_entry_brightness status st base Hscan).
    cbn [fst snd].
    destruct (direction_iff _ base _
                (decrease_spec status (old_brightness_status st))) as [Hd Hi].
    repeat split; try apply Hd; try apply Hi.
  - destruct scan_volume as [base [Hscan Hlen]].
    exists base. split; [ exact Hscan | ]. split; [ exact Hlen | ].
    rewrite (get_event_key_entry_volume status st base Hne Hscan).
    cbn [fst snd].
    destruct (direction_iff _ base _
                (decrease_spec status (old_volume_status st))) as [Hd Hi].
    repeat split; try apply Hd; try apply Hi.
Qed.

End KeyEntry.

Section FirstSample.

Context {hdr : Headers}.
Variable hw : Hardware.

Lemma old_brightness_status_kept (event : Z) (st : driver) :
  event <> EVENT_DISPLAY_BRIGHTNESS ->
  old_brightness_status st = -1 ->
  old_brightness_status (snd (do_event_action hw event st)) = -1.
Proof.
  intros Hne. revert st.
  apply (stable_do_event_action hw (fun s => old_brightness_status s = -1)).
  - intros e s H. exact H.
  - intros status. apply stable_switchvideomode_handler; auto.
  - intros status. apply stable_get_event_key_entry; auto.
Qed.

Lemma old_volume_status_kept (event : Z) (st : driver) :
  event <> EVENT_AUDIO_VOLUME ->
  old_volume_status st = -1 ->
  old_volume_status (snd (do_event_action hw event st)) = -1.
Proof.
  intros Hne. revert st.
  apply (stable_do_event_action hw (fun s => old_volume_status s = -1)).
  - intros e s H. exact H.
  - intros status. apply stable_switchvideomode_handler; auto.
  - intros status. apply stable_get_event_key_entry; auto.
Qed.

Lemma old_brightness_status_until (events : list Z) (st : driver) :
  ~ In EVENT_DISPLAY_BRIGHTNESS events ->
  old_brightness_status st = -1 ->
  old_brightness_status (do_event_actions hw events st) = -1.
Proof.
  revert st. induction events as [ | event rest IH]; intros st Hnot H.
  - exact H.
  - cbn [do_event_actions]. apply IH.
    + intros Hin. apply Hnot. now right.
    + apply old_brightness_status_kept; [ | exact H ].
      intros E. apply Hnot. now left.
Qed.

Lemma old_volume_status_until (events : list Z) (st : driver) :
  ~ In EVENT_AUDIO_VOLUME events ->
  old_volume_status st = -1 ->
  old_volume_status (do_event_actions hw events st) = -1.
Proof.
  revert st. induction events as [ | event rest IH]; intros st Hnot H.
  - exact H.
  - cbn [do_event_actions]. apply IH.
    + intros Hin. apply Hnot. now right.
    + apply old_volume_status_kept; [ | exact H ].
      intros E. apply Hnot. now left.
Qed.

Lemma first_sample (status : Z) (base : nat) :
  0 <= status ->
  (status <> 0 ->
   Some (if (status =? 0) || (status <? -1) then S base else base)
     = Some base) /\
  (status = 0 ->
   Some (if (status =? 0) || (status <? -1) then S base else base)
     = Some (S base)).
Proof.
  intros Hpos. split; intros H.
  - destruct (Z.eqb_spec status 0) as [E | _]; [ contradiction | ].
    destruct (Z.ltb_spec status (-1)) as [Hlt | _]; [ lia | reflexivity ].
  - rewrite H. reflexivity.
Qed.

(** C10.  The stored last samples of both axes are -1 when the driver is
    loaded and stay so until the first event of their axis is dispatched.
    The first event of an axis then resolves to the base entry (increase)
    when its nonnegative sample is nonzero, and to the entry one past it
    (decrease) when the sample is 0. *)
Theorem first_event_direction (events : list Z) (status : Z) :
  EVENT_AUDIO_VOLUME <> EVENT_DISPLAY_BRIGHTNESS ->
  0 <= status ->
  let st := do_event_actions hw events driver_load in
  old_brightness_status driver_load = -1 /\
  old_volume_status driver_load = -1 /\
  (~ In EVENT_DISPLAY_BRIGHTNESS events ->
   old_brightness_status st = -1 /\
   exists base,
     sparse_keymap_entry_from_scancode EVENT_DISPLAY_BRIGHTNESS = Some base /\
     let ke := fst (get_event_key_entry EVENT_DISPLAY_BRIGHTNESS status st) in
     (status <> 0 -> ke = Some base) /\
     (status = 0 -> ke = Some (S base))) /\
  (~ In EVENT_AUDIO_VOLUME events ->
   old_volume_status st = -1 /\
   exists base,
     sparse_keymap_entry_from_scancode EVENT_AUDIO_VOLUME = Some base /\
     let ke := fst (get_event_key_entry EVENT_AUDIO_VOLUME status st) in
     (status <> 0 -> ke = Some base) /\
     (status = 0 -> ke = Some (S base))).
Proof.
  intros Hne Hpos st. split; [ reflexivity | ]. split; [ reflexivity | ].
  split; intros Hnot.
  - assert (Hold : old_brightness_status st = -1)
      by (now apply old_brightness_status_until).
    split; [ exact Hold | ].
    destruct scan_brightness as [base [Hscan _]]. exists base.
    split; [ exact Hscan | ].
    rewrite (get_event_key_entry_brightness status st base Hscan), Hold.
    cbn [fst]. now apply first_sample.
  - assert (Hold : old_volume_status st = -1)
      by (now apply old_volume_status_until).
    split; [ exact Hold | ].
    destruct scan_volume as [base [Hscan _]]. exists base.
    split; [ exact Hscan | ].
    rewrite (get_event_key_entry_volume status st base Hne Hscan), Hold.
    cbn [fst]. now apply first_sample.
Qed.

End FirstSample.

(** ** The firmware version gate of the display toggle *)

Section Version.

Context {hdr : Headers}.

Lemma uchar_nonneg (c : ascii) : 0 <= uchar c.
Proof. unfold uchar. apply N2Z.is_nonneg. Qed.

Lemma uchar_inj (c1 c2 : ascii) : uchar c1 = uchar c2 -> c1 = c2.
Proof.
  unfold uchar. intros H. apply N2Z.inj in H.
  rewrite <- (ascii_N_embedding c1), <- (ascii_N_embedding c2).
  now rewrite H.
Qed.

Lemma is_nul_false (c : ascii) : is_nul c = false -> 0 < uchar c.
Proof.
  unfold is_nul. intros H. apply Z.eqb_neq in H.
  pose proof (uchar_nonneg c). lia.
Qed.

Lemma is_nul_true (c : ascii) : is_nul c = true -> uchar c = 0.
Proof. unfold is_nul. apply Z.eqb_eq. Qed.

Lemma folded_nil (n : nat) : folded n EmptyString = [].
Proof. unfold folded. cbn [c_bytes]. now rewrite firstn_nil. Qed.

Lemma folded_nul (n : nat) (c : ascii) (t : string) :
  is_nul c = true -> folded n (String c t) = [].
Proof.
  intros H. unfold folded. cbn [c_bytes]. rewrite H. now rewrite firstn_nil.
Qed.

Lemma folded_cons (n : nat) (c : ascii) (t : string) :
  is_nul c = false ->
  folded (S n) (String c t) = uchar (tolower c) :: folded n t.
Proof. intros H. unfold folded. cbn [c_bytes]. rewrite H. reflexivity. Qed.

(** The byte loop and the lexicographic order on folded prefixes agree on
    "strictly less". *)
Lemma strncasecmp_negative (n : nat) (s1 s2 : string) :
  (strncasecmp s1 s2 n <? 0) = caseless_lt_spec n s1 s2.
Proof.
  revert s1 s2. induction n as [ | n IH]; intros s1 s2.
  - reflexivity.
  - unfold caseless_lt_spec in *. cbn [strncasecmp].
    destruct s1 as [ | c1 t1]; cbn [deref next].
    + change (is_nul zero) with true. cbn [orb].
      change (uchar zero) with 0. rewrite folded_nil.
      destruct s2 as [ | c2 t2]; cbn [deref].
      * rewrite folded_nil. reflexivity.
      * destruct (is_nul c2) eqn:N2.
        -- rewrite folded_nul by exact N2.
           rewrite (is_nul_true c2 N2). reflexivity.
        -- rewrite folded_cons by exact N2. cbn [lex_ltb].
           apply is_nul_false in N2. apply Z.ltb_lt. lia.
    + destruct (is_nul c1) eqn:N1.
      * cbn [orb]. rewrite folded_nul by exact N1.
        rewrite (is_nul_true c1 N1).
        destruct s2 as [ | c2 t2]; cbn [deref].
        -- rewrite folded_nil. reflexivity.
        -- destruct (is_nul c2) eqn:N2.
           ++ rewrite folded_nul by exact N2.
              rewrite (is_nul_true c2 N2). reflexivity.
           ++ rewrite folded_cons by exact N2. cbn [lex_ltb].
              apply is_nul_false in N2. apply Z.ltb_lt. lia.
      * rewrite folded_cons by exact N1.
        destruct s2 as [ | c2 t2]; cbn [deref next].
        -- change (is_nul zero) with true. cbn [orb].
           change (uchar zero) with 0. rewrite folded_nil.
           apply is_nul_false in N1.
           destruct (uchar (tolower c1) :: folded n t1); cbn [lex_ltb];
             apply Z.ltb_ge; lia.
        -- destruct (is_nul c2) eqn:N2.
           ++ cbn [orb]. rewrite folded_nul by exact N2.
              rewrite (is_nul_true c2 N2). apply is_nul_false in N1.
              cbn [lex_ltb]. apply Z.ltb_ge. lia.
           ++ cbn [orb]. rewrite folded_cons by exact N2. cbn [lex_ltb].
              destruct (Z.eqb_spec (uchar c1) (uchar c2)) as [E | _].
              ** apply uchar_inj in E. subst c2.
                 rewrite Z.ltb_irrefl, Z.eqb_refl. cbn [orb andb]. apply IH.
              ** destruct (Z.eqb_spec (uchar (tolower c1)) (uchar (tolower c2)))
                   as [E | NE]; cbn [negb].
                 --- rewrite E, Z.ltb_irrefl. cbn [orb andb]. apply IH.
                 --- cbn [orb andb]. rewrite orb_false_r.
                     destruct (Z.ltb_spec (uchar (tolower c1))
                                 (uchar (tolower c2))) as [Hlt | Hge].
                     +++ apply Z.ltb_lt. lia.
                     +++ apply Z.ltb_ge. lia.
Qed.

Variable hw : Hardware.

Lemma display_vo_set_LCD_trace (on : Z) (st : driver) :
  let value := u8_of (hw_inb hw (trace st ++ [Outb 0x31 0x3c4]) 0x3c5) in
  trace (snd (display_vo_set hw LCD on st))
    = trace st ++ [Outb 0x31 0x3c4; Inb 0x3c5 value; Outb 0x31 0x3c4;
                   Outb (Z.lor value (if on =? 0 then 0x02 else 0x03)) 0x3c5].
Proof.
  intros value. unfold display_vo_set, bind, outb, inb, emit, modify.
  cbn [snd trace log Z.eqb LCD]. fold value.
  unfold truthy. destruct (on =? 0); cbn [negb];
    rewrite u8_of_lor by (try apply u8_of_range; lia);
    rewrite <- !app_assoc; reflexivity.
Qed.

(** C4.  The display toggle handler applies the LCD display-output side
    effect exactly when the EC firmware version is strictly below
    "EC_VER=PQ1D26" in the case-insensitive order on the first 64 bytes; with
    a version equal to or above it the driver state, trace included, is the
    one before the call.  The handler returns its input status in both
    cases, and the side effect, when applied, is the four port accesses of
    the LCD output. *)
Theorem displaytoggle_handler_version_gate (status : Z) (st : driver) :
  displaytoggle_handler hw status st
    = (status,
       if caseless_lt_spec 64 (ec_kb3310b_ver hw) "EC_VER=PQ1D26"
       then snd (display_vo_set hw LCD status st)
       else st) /\
  (let value := u8_of (hw_inb hw (trace st ++ [Outb 0x31 0x3c4]) 0x3c5) in
   trace (snd (display_vo_set hw LCD status st))
     = trace st ++ [Outb 0x31 0x3c4; Inb 0x3c5 value; Outb 0x31 0x3c4;
                    Outb (Z.lor value (if status =? 0 then 0x02 else 0x03))
                      0x3c5]) /\
  fst (displaytoggle_handler hw status st) = status.
Proof.
  assert (E : displaytoggle_handler hw status st
              = (status,
                 if caseless_lt_spec 64 (ec_kb3310b_ver hw) "EC_VER=PQ1D26"
                 then snd (display_vo_set hw LCD status st)
                 else st)).
  { unfold displaytoggle_handler, ec_version_before.
    rewrite strncasecmp_negative.
    destruct (caseless_lt_spec 64 (ec_kb3310b_ver hw) "EC_VER=PQ1D26").
    - unfold bind. change (truthy 1) with true. cbn iota.
      destruct (display_vo_set hw LCD status st). reflexivity.
    - reflexivity. }
  split; [ exact E | ]. split.
  - apply display_vo_set_LCD_trace.
  - rewrite E. reflexivity.
Qed.

End Version.

(** ** The dispatcher away from the video mode case *)

Section Unswitched.

Context {hdr : Headers}.
Variable hw : Hardware.
Variable P : driver -> Prop.
Hypothesis P_log : forall e st, P st -> P (log e st).

Ltac settle_leaf :=
  first
    [ apply stable_ec_read | apply stable_crt_detect_handler
    | apply stable_camera_handler | apply stable_usb2_handler
    | apply stable_usb0_handler | apply stable_displaytoggle_handler
    | apply stable_ac_bat_handler | apply stable_report_lid_switch
    | apply stable_emit ];
  exact P_log.

Lemma stable_key_report (event status : Z) :
  (forall status', stable P (get_event_key_entry event status')) ->
  stable P
    (ke <- get_event_key_entry event status ;;
     match ke with
     | Some ke =>
         if ke_keycode (key_at ke) =? SW_LID
         then report_lid_switch status ;; ret tt
         else emit (SparseKeymapReportEntry (key_at ke) 1 true)
     | None => ret tt
     end).
Proof.
  intros Hkey. repeat stable_step; try apply Hkey; settle_leaf.
Qed.

Lemma stable_do_event_action_unswitched (event : Z) :
  event = EVENT_LID \/ event <> EVENT_SWITCHVIDEOMODE ->
  (forall status, stable P (get_event_key_entry event status)) ->
  stable P (do_event_action hw event).
Proof.
  intros Hev Hkey. unfold do_event_action, event_binding.
  destruct (Z.eqb_spec event EVENT_LID) as [El | Nl].
  - repeat stable_step; try apply Hkey; settle_leaf.
  - destruct Hev as [El | Nv]; [ contradiction | ].
    destruct (Z.eqb_spec event EVENT_SWITCHVIDEOMODE) as [Ev | _];
      [ contradiction | ].
    repeat match goal with
           | |- context [if ?a =? ?b then _ else _] =>
               lazymatch a with event => destruct (a =? b) end
           end;
      repeat stable_step; try apply Hkey; settle_leaf.
Qed.

End Unswitched.

(** ** The rotation index over the driver's lifetime *)

Section Lifetime.

Context {hdr : Headers}.

Lemma switchvideomode_handler_off (hw : Hardware) (status : Z) (st : driver) :
  u8_of (hw_ec_read hw (trace st) REG_CRT_DETECT) = OFF ->
  switchvideomode_handler hw status st
    = (0, log (EcRead REG_CRT_DETECT OFF) st).
Proof.
  intros Hcrt. unfold switchvideomode_handler, bind, ec_read.
  rewrite Hcrt. reflexivity.
Qed.

Lemma switchvideomode_handler_next (hw : Hardware) (status : Z) (st : driver) :
  u8_of (hw_ec_read hw (trace st) REG_CRT_DETECT) <> OFF ->
  in_rotation st ->
  video_output_status (snd (switchvideomode_handler hw status st))
    = (if video_output_status st =? 4 then 1 else video_output_status st + 1).
Proof.
  intros Hcrt Hst.
  rewrite switchvideomode_advance by assumption.
  cbn [snd]. apply video_output_status_switched.
Qed.

Lemma in_rotation_switchvideomode_handler (hw : Hardware) (status : Z) :
  stable in_rotation (switchvideomode_handler hw status).
Proof.
  intros st Hst.
  destruct (Z.eq_dec (u8_of (hw_ec_read hw (trace st) REG_CRT_DETECT)) OFF)
    as [Hoff | Hon].
  - rewrite switchvideomode_handler_off by exact Hoff. exact Hst.
  - unfold in_rotation. rewrite switchvideomode_handler_next by assumption.
    unfold in_rotation in Hst.
    destruct (Z.eqb_spec (video_output_status st) 4); lia.
Qed.

Lemma in_rotation_lifetime (st : driver) : lifetime st -> in_rotation st.
Proof.
  induction 1
    as [ | st _ IH | st _ IH | hw st _ IH | hw irq st _ IH | e st _ IH].
  6: exact IH.
  - unfold in_rotation. cbn. lia.
  - exact IH.
  - exact IH.
  - revert IH. apply stable_sci_irq_init. intros e s H. exact H.
  - revert IH. apply stable_sci_irq_handler.
    + intros e s H. exact H.
    + intros status. apply in_rotation_switchvideomode_handler.
    + intros event status. apply stable_get_event_key_entry; auto.
Qed.

Lemma video_output_status_log (v : Z) (e : io_event) (s : driver) :
  video_output_status s = v -> video_output_status (log e s) = v.
Proof. intros H. exact H. Qed.

(** In the video mode case the dispatcher leaves the index as the handler,
    called with status 0, left it. *)
Lemma do_event_action_switch (hw : Hardware) (event : Z) (st : driver) :
  event <> EVENT_LID ->
  event = EVENT_SWITCHVIDEOMODE ->
  video_output_status (snd (do_event_action hw event st))
    = video_output_status (snd (switchvideomode_handler hw 0 st)).
Proof.
  intros Nl Ev. unfold do_event_action, event_binding.
  destruct (Z.eqb_spec event EVENT_LID) as [El | _]; [ contradiction | ].
  destruct (Z.eqb_spec event EVENT_SWITCHVIDEOMODE) as [_ | Nv];
    [ | contradiction ].
  rewrite Z.eqb_refl. cbn [negb].
  rewrite bind_eq. cbn [ret fst snd]. rewrite bind_eq.
  apply (stable_key_report
           (fun s => video_output_status s
                     = video_output_status
                         (snd (switchvideomode_handler hw 0 st))));
    [ intros e s H; exact H | | reflexivity ].
  intros status'. apply stable_get_event_key_entry; auto.
Qed.

Lemma do_event_action_unswitched (hw : Hardware) (event : Z) (st : driver) :
  event = EVENT_LID \/ event <> EVENT_SWITCHVIDEOMODE ->
  video_output_status (snd (do_event_action hw event st))
    = video_output_status st.
Proof.
  intros Hev.
  apply (stable_do_event_action_unswitched hw
           (fun s => video_output_status s = video_output_status st));
    [ intros e s H; exact H | exact Hev | | reflexivity ].
  intros status. apply stable_get_event_key_entry; auto.
Qed.

(** What one interrupt does to the index. *)
Lemma sci_irq_handler_index (hw : Hardware) (irq : Z) (st : driver) :
  in_rotation st ->
  (switches hw irq st ->
   video_output_status (snd (sci_irq_handler hw irq st))
     = (if video_output_status st =? 4 then 1
        else video_output_status st + 1)) /\
  (~ switches hw irq st ->
   video_output_status (snd (sci_irq_handler hw irq st))
     = video_output_status st).
Proof.
  intros Hst. unfold switches, sci_irq_handler.
  set (r := int_of (hw_ec_query_event_num hw (trace st))).
  set (event :=
         int_of (hw_ec_get_event_num hw (trace st ++ [EcQueryEventNum r]))).
  destruct (Z.eqb_spec irq SCI_IRQ_NUM) as [Eirq | Nirq]; cbn [negb];
    [ | split; [ intros [H _]; contradiction | reflexivity ] ].
  rewrite bind_eq. unfold ec_query_event_num. cbn [fst snd]. fold r.
  destruct (Z.ltb_spec r 0) as [Hlt | Hge];
    [ split; [ intros [_ [H _]]; lia | reflexivity ] | ].
  rewrite bind_eq. unfold ec_get_event_num. cbn [fst snd trace log].
  fold event.
  set (queried := log (EcGetEventNum event) (log (EcQueryEventNum r) st)).
  destruct (Z.ltb_spec event EVENT_START) as [Hs | Hs]; cbn [orb];
    [ split; [ intros [_ [_ [H _]]]; lia | reflexivity ] | ].
  destruct (Z.gtb_spec event EVENT_END) as [He | He];
    [ split; [ intros [_ [_ [H _]]]; lia | reflexivity ] | ].
  rewrite bind_eq. cbn [ret snd].
  destruct (Z.eq_dec event EVENT_LID) as [El | Nl].
  { rewrite do_event_action_unswitched by (left; exact El).
    split; [ intros [_ [_ [_ [H _]]]]; contradiction | reflexivity ]. }
  destruct (Z.eq_dec event EVENT_SWITCHVIDEOMODE) as [Ev | Nv].
  2: { rewrite do_event_action_unswitched by (right; exact Nv).
       split; [ intros [_ [_ [_ [_ [H _]]]]]; contradiction | reflexivity ]. }
  rewrite do_event_action_switch by assumption.
  assert (Hq : in_rotation queried) by exact Hst.
  destruct (Z.eq_dec
              (u8_of (hw_ec_read hw (trace queried) REG_CRT_DETECT)) OFF)
    as [Hoff | Hon].
  - rewrite switchvideomode_handler_off by exact Hoff.
    split; [ intros [_ [_ [_ [_ [_ H]]]]]; contradiction | reflexivity ].
  - rewrite switchvideomode_handler_next by assumption.
    split; [ reflexivity | ].
    intros Hnot. exfalso. apply Hnot. repeat split; try assumption; lia.
Qed.

Lemma before_first_switch_index (st : driver) :
  before_first_switch st -> video_output_status st = 0.
Proof.
  induction 1
    as [ | st _ IH | st _ IH | hw st _ IH | hw irq st _ IH Hnot | e st _ IH].
  - reflexivity.
  - exact IH.
  - exact IH.
  - revert IH.
    apply (stable_sci_irq_init hw (fun s => video_output_status s = 0)).
    intros e s H. exact H.
  - assert (Hst : in_rotation st) by (unfold in_rotation; lia).
    rewrite (proj2 (sci_irq_handler_index hw irq st Hst) Hnot). exact IH.
  - exact IH.
Qed.

(** C6, as the code has it.  The rotation index is 0 when the driver is
    loaded and lies in [[0, 4]] at every point of the driver's lifetime.  An
    invocation of the switch-video-mode handler that finds the CRT connected
    moves it to its successor, 4 being followed by 1, so that it lies in
    [[1, 4]] after every such invocation; an invocation that finds no CRT
    leaves it as it was.  Nothing else moves it: an interrupt changes the
    index exactly when it reaches the handler with the CRT connected, and
    arming the SCI line never does, so that the index is 0 from the load
    until the first such interrupt. *)
Theorem video_output_status_range (st : driver) :
  lifetime st ->
  video_output_status driver_load = 0 /\
  0 <= video_output_status st <= 4 /\
  (forall hw status,
    let st' := snd (switchvideomode_handler hw status st) in
    (u8_of (hw_ec_read hw (trace st) REG_CRT_DETECT) <> OFF ->
     1 <= video_output_status st' <= 4 /\
     video_output_status st'
       = (if video_output_status st =? 4 then 1
          else video_output_status st + 1)) /\
    (u8_of (hw_ec_read hw (trace st) REG_CRT_DETECT) = OFF ->
     video_output_status st' = video_output_status st)) /\
  (before_first_switch st -> video_output_status st = 0) /\
  (forall hw irq,
    let st' := snd (sci_irq_handler hw irq st) in
    (switches hw irq st ->
     1 <= video_output_status st' <= 4 /\
     video_output_status st'
       = (if video_output_status st =? 4 then 1
          else video_output_status st + 1)) /\
    (~ switches hw irq st ->
     video_output_status st' = video_output_status st)) /\
  (forall hw,
    video_output_status (snd (sci_irq_init hw st)) = video_output_status st).
Proof.
  intros Hlife. pose proof (in_rotation_lifetime st Hlife) as Hst.
  split; [ reflexivity | ]. split; [ exact Hst | ].
  split; [ | split; [ | split ] ].
  - intros hw status st'. subst st'. split.
    + intros Hon. rewrite switchvideomode_handler_next by assumption.
      unfold in_rotation in Hst.
      destruct (Z.eqb_spec (video_output_status st) 4); lia.
    + intros Hoff. rewrite switchvideomode_handler_off by exact Hoff.
      reflexivity.
  - apply before_first_switch_index.
  - intros hw irq st'. subst st'.
    destruct (sci_irq_handler_index hw irq st Hst) as [Hyes Hno].
    split; [ | exact Hno ].
    intros Hsw. rewrite (Hyes Hsw). unfold in_rotation in Hst.
    split; [ | reflexivity ].
    destruct (Z.eqb_spec (video_output_status st) 4); lia.
  - intros hw.
    apply (stable_sci_irq_init hw
             (fun s => video_output_status s = video_output_status st));
      [ intros e s H; exact H | reflexivity ].
Qed.

End Lifetime.

(** ** Arming the SCI line *)

Section Arming.

Context {hdr : Headers}.
Variable hw : Hardware.

(** The delay of [sci_irq_init].  The routine reads the GPIO base and
    issues the flush query.  When the query answers 0, the very next thing
    is one delay whose argument is 10000, handed to the millisecond delay
    primitive, and no other delay follows; when the query answers anything
    else, the routine returns that answer without any delay. *)
Theorem sci_irq_init_delay (st : driver) :
  let base := hw_rdmsr hw (trace st) DIVIL_MSR_REG_DIVIL_LBAR_GPIO in
  let read_base :=
    Rdmsr DIVIL_MSR_REG_DIVIL_LBAR_GPIO (u32_of (fst base)) (u32_of (snd base)) in
  let r := int_of (hw_ec_query_event_num hw (trace st ++ [read_base])) in
  exists added,
    trace (snd (sci_irq_init hw st)) = trace st ++ added /\
    (forall msecs, In (Mdelay msecs) added -> msecs = 10000) /\
    (r = 0 ->
     fst (sci_irq_init hw st) = 0 /\
     exists rest,
       added = [read_base; EcQueryEventNum 0; Mdelay 10000] ++ rest /\
       forall msecs, ~ In (Mdelay msecs) rest) /\
    (r <> 0 ->
     fst (sci_irq_init hw st) = r /\
     added = [read_base; EcQueryEventNum r]).
Proof.
  intros base read_base r.
  unfold sci_irq_init, bind, _rdmsr, ec_query_event_num, mdelay, _wrmsr, outl,
    emit, modify, ret.
  fold base. destruct base as [hi0 lo0] eqn:Ebase.
  cbn [fst snd] in read_base. cbn [snd trace log].
  fold read_base. fold r.
  unfold truthy. destruct (Z.eqb_spec r 0) as [E0 | NE0]; cbn [negb].
  - repeat match goal with
           | |- context [hw_rdmsr hw ?h ?m] =>
               let hi := fresh "hi" in
               let lo := fresh "lo" in
               destruct (hw_rdmsr hw h m) as [hi lo]; cbn [fst snd trace log]
           end.
    rewrite <- !app_assoc. cbn [app].
    eexists. split; [ reflexivity | ]. split.
    + intros msecs Hin. cbn [In] in Hin.
      repeat (destruct Hin as [Hin | Hin]; [ try discriminate | ]);
        try contradiction.
      injection Hin as Hin. now subst.
    + split; [ intros _ | intros H; contradiction ].
      split; [ reflexivity | ].
      rewrite E0. eexists. split; [ reflexivity | ].
      intros msecs Hin. cbn [In] in Hin.
      repeat (destruct Hin as [Hin | Hin]; [ discriminate | ]).
      contradiction.
  - cbn [fst snd trace log]. rewrite <- !app_assoc. cbn [app].
    eexists. split; [ reflexivity | ]. split.
    + intros msecs Hin. cbn [In] in Hin.
      repeat (destruct Hin as [Hin | Hin]; [ try discriminate | ]);
        try contradiction.
    + split; [ intros H; contradiction | intros _ ].
      split; reflexivity.
Qed.

End Arming.

(** * The theorems at work on the sample machine *)


Lemma switchvideomode_handler_no_crt_witness :
  let hw := steady_hw 0 0 0 "" in
  u8_of (hw_ec_read hw (trace driver_load) (@REG_CRT_DETECT lemote2f)) = OFF /\
  @switchvideomode_handler lemote2f hw 0 driver_load
    = (0, log (EcRead 0xF4AD 0) driver_load).
Proof.
  intros hw. split; [ reflexivity | ].
  exact (proj1 (@switchvideomode_handler_no_crt lemote2f hw 0 driver_load
                  eq_refl)).
Defined.

Lemma lid_event_reports_negation_witness :
  let hw := steady_hw 1 0 0 "" in
  @REG_LID_DETECT lemote2f <> 0 /\
  @EVENT_LID lemote2f <> @EVENT_DISPLAY_BRIGHTNESS lemote2f /\
  @EVENT_LID lemote2f <> @EVENT_AUDIO_VOLUME lemote2f /\
  trace (snd (@do_event_action lemote2f hw 0x23 driver_load))
    = [EcRead 0xF4BD 1; InputReportSwitch 0 0; InputSync].
Proof.
  intros hw.
  assert (H1 : @REG_LID_DETECT lemote2f <> 0) by (vm_compute; discriminate).
  assert (H2 : @EVENT_LID lemote2f <> @EVENT_DISPLAY_BRIGHTNESS lemote2f)
    by (vm_compute; discriminate).
  assert (H3 : @EVENT_LID lemote2f <> @EVENT_AUDIO_VOLUME lemote2f)
    by (vm_compute; discriminate).
  repeat (split; [ assumption | ]).
  exact (f_equal (fun r => trace (snd r))
           (proj1 (@lid_event_reports_negation lemote2f hw driver_load
                     H1 H2 H3))).
Defined.

Lemma sci_irq_handler_out_of_range_witness :
  let hw := steady_hw 0 0 0x50 "" in
  0 <= int_of (hw_ec_query_event_num hw (trace driver_load)) /\
  @EVENT_END lemote2f < 0x50 /\
  @sci_irq_handler lemote2f hw 0x0A driver_load
    = (IRQ_NONE,
       log (EcGetEventNum 0x50) (log (EcQueryEventNum 0) driver_load)).
Proof.
  intros hw.
  assert (H1 : 0 <= int_of (hw_ec_query_event_num hw (trace driver_load)))
    by (vm_compute; discriminate).
  assert (H2 : @EVENT_END lemote2f < 0x50) by reflexivity.
  split; [ exact H1 | ]. split; [ exact H2 | ].
  exact (proj1 (@sci_irq_handler_out_of_range lemote2f hw driver_load
                  H1 (or_intror H2))).
Defined.

Lemma get_event_key_entry_direction_witness :
  @EVENT_AUDIO_VOLUME lemote2f <> @EVENT_DISPLAY_BRIGHTNESS lemote2f /\
  exists base,
    @sparse_keymap_entry_from_scancode lemote2f 0x2D = Some base /\
    (fst (@get_event_key_entry lemote2f 0x2D 3 driver_load) = Some base
     <-> ~ (3 = 0 \/ 3 < -1)).
Proof.
  assert (H : @EVENT_AUDIO_VOLUME lemote2f <> @EVENT_DISPLAY_BRIGHTNESS lemote2f)
    by (vm_compute; discriminate).
  split; [ exact H | ].
  destruct (proj1 (@get_event_key_entry_direction lemote2f 3 driver_load H))
    as [base [Hscan [_ [_ [Hinc _]]]]].
  exists base. split; [ exact Hscan | exact Hinc ].
Defined.

Lemma first_event_direction_witness :
  let hw := steady_hw 1 0 0 "" in
  @EVENT_AUDIO_VOLUME lemote2f <> @EVENT_DISPLAY_BRIGHTNESS lemote2f /\
  0 <= 5 /\
  ~ In (@EVENT_DISPLAY_BRIGHTNESS lemote2f) [0x23; 0x2F] /\
  old_brightness_status
    (@do_event_actions lemote2f hw [0x23; 0x2F] driver_load) = -1.
Proof.
  intros hw.
  assert (H1 : @EVENT_AUDIO_VOLUME lemote2f <> @EVENT_DISPLAY_BRIGHTNESS lemote2f)
    by (vm_compute; discriminate).
  assert (H2 : 0 <= 5) by (vm_compute; discriminate).
  assert (H3 : ~ In (@EVENT_DISPLAY_BRIGHTNESS lemote2f) [0x23; 0x2F]).
  { cbn. intros [H | [H | H]]; try discriminate H. exact H. }
  split; [ exact H1 | ]. split; [ exact H2 | ]. split; [ exact H3 | ].
  exact (proj1 (proj1 (proj2 (proj2
           (@first_event_direction lemote2f hw [0x23; 0x2F] 5 H1 H2))) H3)).
Defined.

Lemma video_output_status_range_witness :
  let hw := steady_hw 1 0 0x24 "" in
  let st := snd (@sci_irq_handler lemote2f hw 0x0A driver_load) in
  @lifetime lemote2f st /\ 0 <= video_output_status st <= 4.
Proof.
  intros hw st.
  assert (H : @lifetime lemote2f st)
    by (apply lifetime_irq; apply lifetime_load).
  split; [ exact H | ].
  exact (proj1 (proj2 (@video_output_status_range lemote2f st H))).
Defined.

(** ** Where the code departs from the specification *)

(** As loaded, the driver holds the rotation index 0, outside [[1, 4]]: the
    handler's own comment lists 0 as "no CRT connected: LCD on, CRT off". *)
Lemma video_output_status_at_load :
  @lifetime lemote2f driver_load /\
  video_output_status driver_load = 0 /\
  ~ (1 <= video_output_status driver_load <= 4).
Proof.
  split; [ apply lifetime_load | ]. split; [ reflexivity | ].
  cbn. lia.
Qed.

(** C9.  The settling delay is meant to last some tens of milliseconds;
    the code misses it.  On a machine whose flush query answers 0, what
    follows the query is [mdelay(10000)], ten thousand milliseconds of busy
    waiting at every load and every resume, where the comments of the file
    itself put the time scale of the SCI at 120 us for the event and 3 ms
    for the interrupt routine. *)
Lemma sci_irq_init_delay_ten_seconds :
  trace (snd (@sci_irq_init lemote2f (steady_hw 0 0 0 "") driver_load))
    = [Rdmsr 0x5140000C 0 0xB000; EcQueryEventNum 0; Mdelay 10000;
       LocalIrqSave;
       Rdmsr 0x80000024 0 0xB000; Wrmsr 0x80000024 0 0xB000;
       Rdmsr 0x80000025 0 0xB000; Wrmsr 0x80000025 0 0xB000;
       Rdmsr 0x80000023 0 0xB000; Wrmsr 0x80000023 0 0xB00A;
       LocalIrqRestore;
       Outl 0x800 0xB0A0; Outl 0x800 0xB0A4; Outl 0x800 0xB0B8] /\
  ~ (10 <= 10000 < 100).
Proof.
  split; [ vm_compute; reflexivity | lia ].
Qed.

(** * Further properties of the hotkey pipeline *)

Section KeyEntrySafety.

Context {hdr : Headers}.

Ltac scan_keymap_cases :=
  unfold sparse_keymap_entry_from_scancode, yeeloong_keymap;
  cbn [scan_keymap ke_type ke_code is_KE_END];
  repeat match goal with
         | |- context [u32_of ?a =? u32_of ?a] => rewrite (Z.eqb_refl (u32_of a))
         | |- context [if u32_of ?a =? u32_of ?b then _ else _] =>
             destruct (u32_of a =? u32_of b)
         end.

Lemma scan_bound (event : Z) (base : nat) :
  sparse_keymap_entry_from_scancode event = Some base -> (base <= 10)%nat.
Proof.
  scan_keymap_cases; intros H; try discriminate H;
    injection H as H; subst base; lia.
Qed.

Lemma scan_bound_brightness (base : nat) :
  sparse_keymap_entry_from_scancode EVENT_DISPLAY_BRIGHTNESS = Some base ->
  (base <= 7)%nat.
Proof.
  scan_keymap_cases; intros H; try discriminate H;
    injection H as H; subst base; lia.
Qed.

Lemma scan_bound_volume (base : nat) :
  sparse_keymap_entry_from_scancode EVENT_AUDIO_VOLUME = Some base ->
  (base <= 9)%nat.
Proof.
  scan_keymap_cases; intros H; try discriminate H;
    injection H as H; subst base; lia.
Qed.

Lemma key_at_not_end (ke : nat) :
  (ke <= 10)%nat -> ke_type (key_at ke) <> KE_END.
Proof.
  intros H. unfold key_at, yeeloong_keymap.
  do 11 (destruct ke as [ | ke]; [ cbn; discriminate | ]).
  lia.
Qed.

(** X1.  Whatever the event, the status and the stored samples, the key
    entry that [get_event_key_entry] hands back is either none, the statics
    being then untouched, or one of the eleven real entries of the keymap:
    stepping to the next entry for a decrease never lands on the [KE_END]
    terminator or beyond the table. *)
Theorem get_event_key_entry_in_table (event status : Z) (st : driver) :
  match fst (get_event_key_entry event status st) with
  | None => snd (get_event_key_entry event status st) = st
  | Some ke => (ke <= 10)%nat /\ ke_type (key_at ke) <> KE_END
  end.
Proof.
  unfold get_event_key_entry.
  destruct (sparse_keymap_entry_from_scancode event) as [base | ] eqn:Hscan;
    [ | reflexivity ].
  assert (Hke : forall ke, (ke <= 10)%nat ->
                  (ke <= 10)%nat /\ ke_type (key_at ke) <> KE_END)
    by (intros ke H; split; [ exact H | now apply key_at_not_end ]).
  destruct (Z.eqb_spec event EVENT_DISPLAY_BRIGHTNESS) as [Eb | _].
  - subst event. apply scan_bound_brightness in Hscan.
    cbn. apply Hke. destruct ((status =? 0) || _); lia.
  - destruct (Z.eqb_spec event EVENT_AUDIO_VOLUME) as [Ev | _].
    + subst event. apply scan_bound_volume in Hscan.
      cbn. apply Hke. destruct ((status =? 0) || _); lia.
    + apply scan_bound in Hscan. cbn. now apply Hke.
Qed.

End KeyEntrySafety.

Section Verdict.

Context {hdr : Headers}.
Variable hw : Hardware.

Lemma sci_irq_handler_foreign (irq : Z) (st : driver) :
  irq <> SCI_IRQ_NUM -> sci_irq_handler hw irq st = (IRQ_NONE, st).
Proof.
  intros H. unfold sci_irq_handler.
  destruct (Z.eqb_spec irq SCI_IRQ_NUM); [ contradiction | reflexivity ].
Qed.

(** X2.  The interrupt routine answers [IRQ_HANDLED] exactly when the
    interrupt is the SCI line, the event query did not fail and the event
    number lies in [[EVENT_START, EVENT_END]].  A foreign interrupt leaves
    the driver state as it was, without even a query; a failed query leaves
    nothing but the query in the trace. *)
Theorem sci_irq_handler_verdict (irq : Z) (st : driver) :
  let r := int_of (hw_ec_query_event_num hw (trace st)) in
  let event :=
    int_of (hw_ec_get_event_num hw (trace st ++ [EcQueryEventNum r])) in
  (fst (sci_irq_handler hw irq st) = IRQ_HANDLED
   <-> irq = SCI_IRQ_NUM /\ 0 <= r /\ EVENT_START <= event <= EVENT_END) /\
  (irq <> SCI_IRQ_NUM -> sci_irq_handler hw irq st = (IRQ_NONE, st)) /\
  (irq = SCI_IRQ_NUM -> r < 0 ->
   sci_irq_handler hw irq st = (IRQ_NONE, log (EcQueryEventNum r) st)).
Proof.
  intros r event. split; [ | split ].
  - unfold sci_irq_handler.
    destruct (Z.eqb_spec irq SCI_IRQ_NUM) as [Eirq | Nirq]; cbn [negb].
    + unfold bind, ec_query_event_num. fold r.
      destruct (Z.ltb_spec r 0) as [Hlt | Hge].
      * cbn. split; [ discriminate | lia ].
      * unfold ec_get_event_num. cbn [trace log]. fold event.
        destruct (Z.ltb_spec event EVENT_START) as [Hs | Hs]; cbn [orb].
        -- cbn. split; [ discriminate | lia ].
        -- destruct (event >? EVENT_END) eqn:He.
           ++ apply Z.gtb_lt in He. cbn. split; [ discriminate | lia ].
           ++ assert (event <= EVENT_END).
              { destruct (Z.gtb_spec event EVENT_END); [ discriminate | lia ]. }
              destruct (do_event_action hw event _). cbn.
              split; [ intros _; repeat split; assumption | reflexivity ].
    + cbn. split; [ discriminate | intros [H _]; contradiction ].
  - apply sci_irq_handler_foreign.
  - intros Eirq Hlt. unfold sci_irq_handler.
    rewrite Eirq, Z.eqb_refl. cbn [negb].
    unfold bind, ec_query_event_num. fold r.
    destruct (Z.ltb_spec r 0) as [_ | Hge]; [ reflexivity | lia ].
Qed.

End Verdict.

(** ** Events through the dispatcher *)

Ltac not_or_facts :=
  repeat match goal with
         | H : ~ (_ \/ _) |- _ =>
             let H1 := fresh "Hd" in
             let H2 := fresh "Hd" in
             apply Decidable.not_or in H; destruct H as [H1 H2]
         | H : ~ False |- _ => clear H
         end.

Ltac distinct_facts H :=
  unfold events_distinct, hotkey_events in H; cbn [map] in H;
  repeat (let Hin := fresh "Hin" in
          apply NoDup_cons_iff in H; destruct H as [Hin H];
          cbn [In] in Hin);
  not_or_facts.

Ltac decide_tests :=
  repeat match goal with
         | |- context [if ?a =? ?b then _ else _] =>
             destruct (Z.eqb_spec a b); [ exfalso; congruence | ]
         end.

Ltac scan_distinct :=
  unfold sparse_keymap_entry_from_scancode, yeeloong_keymap;
  cbn [scan_keymap ke_type ke_code is_KE_END];
  repeat match goal with
         | |- context [u32_of ?a =? u32_of ?a] => rewrite (Z.eqb_refl (u32_of a))
         | |- context [if u32_of ?a =? u32_of ?b then _ else _] =>
             destruct (Z.eqb_spec (u32_of a) (u32_of b));
             [ exfalso; congruence | ]
         end.

Section Dispatch.

Context {hdr : Headers}.
Variable hw : Hardware.

Lemma scan_brightness_7 :
  events_distinct ->
  sparse_keymap_entry_from_scancode EVENT_DISPLAY_BRIGHTNESS = Some 7%nat.
Proof. intros H. distinct_facts H. scan_distinct. reflexivity. Qed.

Lemma scan_volume_9 :
  events_distinct ->
  sparse_keymap_entry_from_scancode EVENT_AUDIO_VOLUME = Some 9%nat.
Proof. intros H. distinct_facts H. scan_distinct. reflexivity. Qed.

Lemma scan_sleep_2 :
  events_distinct ->
  sparse_keymap_entry_from_scancode EVENT_SLEEP = Some 2%nat.
Proof. intros H. distinct_facts H. scan_distinct. reflexivity. Qed.

Lemma scan_wlan_6 :
  events_distinct ->
  sparse_keymap_entry_from_scancode EVENT_WLAN = Some 6%nat.
Proof. intros H. distinct_facts H. scan_distinct. reflexivity. Qed.

Lemma scan_ac_bat :
  events_distinct -> sparse_keymap_entry_from_scancode EVENT_AC_BAT = None.
Proof. intros H. distinct_facts H. scan_distinct. reflexivity. Qed.

Lemma scan_unknown (event : Z) :
  ~ In (u32_of event) (map u32_of hotkey_events) ->
  sparse_keymap_entry_from_scancode event = None.
Proof.
  intros H. unfold hotkey_events in H. cbn [map In] in H. not_or_facts.
  scan_distinct. reflexivity.
Qed.

Lemma binding_brightness :
  events_distinct ->
  event_binding hw EVENT_DISPLAY_BRIGHTNESS = (REG_DISPLAY_BRIGHTNESS, None).
Proof.
  intros H. distinct_facts H. unfold event_binding.
  repeat match goal with
         | |- context [if ?a =? ?a then _ else _] => rewrite (Z.eqb_refl a)
         | |- context [if ?a =? ?b then _ else _] =>
             destruct (Z.eqb_spec a b); [ exfalso; congruence | ]
         end.
  reflexivity.
Qed.

Lemma binding_volume :
  events_distinct ->
  event_binding hw EVENT_AUDIO_VOLUME = (REG_AUDIO_VOLUME, None).
Proof.
  intros H. distinct_facts H. unfold event_binding.
  repeat match goal with
         | |- context [if ?a =? ?a then _ else _] => rewrite (Z.eqb_refl a)
         | |- context [if ?a =? ?b then _ else _] =>
             destruct (Z.eqb_spec a b); [ exfalso; congruence | ]
         end.
  reflexivity.
Qed.

Lemma binding_ac_bat :
  events_distinct ->
  event_binding hw EVENT_AC_BAT = (0, Some ac_bat_handler).
Proof.
  intros H. distinct_facts H. unfold event_binding.
  repeat match goal with
         | |- context [if ?a =? ?a then _ else _] => rewrite (Z.eqb_refl a)
         | |- context [if ?a =? ?b then _ else _] =>
             destruct (Z.eqb_spec a b); [ exfalso; congruence | ]
         end.
  reflexivity.
Qed.

Lemma binding_unbound (event : Z) :
  event <> EVENT_LID -> event <> EVENT_SWITCHVIDEOMODE ->
  event <> EVENT_CRT_DETECT -> event <> EVENT_CAMERA ->
  event <> EVENT_USB_OC2 -> event <> EVENT_USB_OC0 ->
  event <> EVENT_DISPLAY_TOGGLE -> event <> EVENT_AUDIO_MUTE ->
  event <> EVENT_DISPLAY_BRIGHTNESS -> event <> EVENT_AUDIO_VOLUME ->
  event <> EVENT_AC_BAT ->
  event_binding hw event = (0, None).
Proof.
  intros. unfold event_binding.
  repeat match goal with
         | |- context [if ?a =? ?b then _ else _] =>
             destruct (Z.eqb_spec a b); [ contradiction | ]
         end.
  reflexivity.
Qed.

(** X3.  With the event numbers distinct, a brightness event reads the
    brightness register and reports [KEY_BRIGHTNESSDOWN] when the level read
    is 0 or below the stored one and [KEY_BRIGHTNESSUP] otherwise, storing
    the level read; a volume event does the same with the volume register,
    [KEY_VOLUMEDOWN] and [KEY_VOLUMEUP].  Nothing else happens. *)
Theorem brightness_and_volume_keys (st : driver) :
  events_distinct ->
  REG_DISPLAY_BRIGHTNESS <> 0 ->
  REG_AUDIO_VOLUME <> 0 ->
  KEY_BRIGHTNESSUP <> SW_LID /\ KEY_BRIGHTNESSDOWN <> SW_LID ->
  KEY_VOLUMEUP <> SW_LID /\ KEY_VOLUMEDOWN <> SW_LID ->
  (let raw := u8_of (hw_ec_read hw (trace st) REG_DISPLAY_BRIGHTNESS) in
   let key := if (raw =? 0) || (raw <? old_brightness_status st)
              then KEY_BRIGHTNESSDOWN else KEY_BRIGHTNESSUP in
   do_event_action hw EVENT_DISPLAY_BRIGHTNESS st
     = (tt,
        log (SparseKeymapReportEntry
               (mk_key_entry KE_KEY EVENT_DISPLAY_BRIGHTNESS key) 1 true)
          (set_old_brightness_status raw
             (log (EcRead REG_DISPLAY_BRIGHTNESS raw) st)))) /\
  (let raw := u8_of (hw_ec_read hw (trace st) REG_AUDIO_VOLUME) in
   let key := if (raw =? 0) || (raw <? old_volume_status st)
              then KEY_VOLUMEDOWN else KEY_VOLUMEUP in
   do_event_action hw EVENT_AUDIO_VOLUME st
     = (tt,
        log (SparseKeymapReportEntry
               (mk_key_entry KE_KEY EVENT_AUDIO_VOLUME key) 1 true)
          (set_old_volume_status raw
             (log (EcRead REG_AUDIO_VOLUME raw) st)))).
Proof.
  intros Hd Hrb Hrv [Hbu Hbd] [Hvu Hvd]. split.
  - intros raw key. unfold do_event_action.
    rewrite (binding_brightness Hd).
    destruct (Z.eqb_spec REG_DISPLAY_BRIGHTNESS 0); [ contradiction | ].
    cbn [negb]. unfold bind at 1 2. unfold ec_read at 1. fold raw.
    unfold ret at 1. unfold bind at 1.
    rewrite (get_event_key_entry_brightness raw _ 7%nat (scan_brightness_7 Hd)).
    cbn [old_brightness_status log]. subst key.
    destruct ((raw =? 0) || (raw <? old_brightness_status st));
      unfold key_at, yeeloong_keymap; cbn [nth ke_keycode].
    + destruct (Z.eqb_spec KEY_BRIGHTNESSDOWN SW_LID); [ contradiction | ].
      reflexivity.
    + destruct (Z.eqb_spec KEY_BRIGHTNESSUP SW_LID); [ contradiction | ].
      reflexivity.
  - intros raw key. unfold do_event_action.
    rewrite (binding_volume Hd).
    destruct (Z.eqb_spec REG_AUDIO_VOLUME 0); [ contradiction | ].
    cbn [negb]. unfold bind at 1 2. unfold ec_read at 1. fold raw.
    unfold ret at 1.
    assert (Hne : EVENT_AUDIO_VOLUME <> EVENT_DISPLAY_BRIGHTNESS).
    { pose proof Hd as Hd'. distinct_facts Hd'. congruence. }
    unfold bind at 1.
    rewrite (get_event_key_entry_volume raw _ 9%nat Hne (scan_volume_9 Hd)).
    cbn [old_volume_status log]. subst key.
    destruct ((raw =? 0) || (raw <? old_volume_status st));
      unfold key_at, yeeloong_keymap; cbn [nth ke_keycode].
    + destruct (Z.eqb_spec KEY_VOLUMEDOWN SW_LID); [ contradiction | ].
      reflexivity.
    + destruct (Z.eqb_spec KEY_VOLUMEUP SW_LID); [ contradiction | ].
      reflexivity.
Qed.

Lemma binding_without_case (event : Z) :
  events_distinct ->
  event = EVENT_SLEEP \/ event = EVENT_WLAN ->
  event_binding hw event = (0, None).
Proof.
  intros H He. distinct_facts H.
  apply binding_unbound; destruct He; subst event; congruence.
Qed.

(** X4.  The AC/battery event end to end: on the SCI line, after a query
    that did not fail, the event [EVENT_AC_BAT] makes the interrupt routine
    answer [IRQ_HANDLED]; when the power-supply objects have been
    registered both are notified, the AC adapter first and the battery
    second, once each, and otherwise nobody is; no EC register is read and
    nothing goes to the input layer, the keymap having no entry for the
    event. *)
Theorem ac_bat_event_end_to_end (st : driver) :
  let r := int_of (hw_ec_query_event_num hw (trace st)) in
  let event :=
    int_of (hw_ec_get_event_num hw (trace st ++ [EcQueryEventNum r])) in
  let queried := log (EcGetEventNum event) (log (EcQueryEventNum r) st) in
  events_distinct ->
  0 <= r ->
  event = EVENT_AC_BAT ->
  EVENT_START <= EVENT_AC_BAT <= EVENT_END ->
  sci_irq_handler hw SCI_IRQ_NUM st
    = (IRQ_HANDLED,
       if truthy (ac_bat_initialized st)
       then log (PowerSupplyChanged yeeloong_bat)
              (log (PowerSupplyChanged yeeloong_ac) queried)
       else queried).
Proof.
  intros r event queried Hd Hr He Hrange.
  unfold sci_irq_handler. rewrite Z.eqb_refl. cbn [negb].
  unfold bind at 1. unfold ec_query_event_num. fold r.
  destruct (Z.ltb_spec r 0) as [Hlt | _]; [ lia | ].
  unfold bind at 1. unfold ec_get_event_num. cbn [trace log]. fold event.
  fold queried. rewrite He.
  destruct (Z.ltb_spec EVENT_AC_BAT EVENT_START) as [Hlt | _]; [ lia | ].
  destruct (Z.gtb_spec EVENT_AC_BAT EVENT_END) as [Hgt | _]; [ lia | ].
  cbn [orb]. unfold bind at 1. unfold do_event_action.
  rewrite (binding_ac_bat Hd). rewrite Z.eqb_refl. cbn [negb].
  unfold get_event_key_entry. rewrite (scan_ac_bat Hd).
  unfold ac_bat_handler, bind, get, ret, emit, modify.
  replace (ac_bat_initialized queried) with (ac_bat_initialized st)
    by reflexivity.
  destruct (truthy (ac_bat_initialized st)); reflexivity.
Qed.

(** X5.  Events the [switch] of the dispatcher has no case for: the sleep
    and the WLAN key are reported as they are, without any EC register being
    read; an event number that is none of those the file names passes
    through the dispatcher without leaving a trace or touching a static. *)
Theorem events_without_case (st : driver) :
  events_distinct ->
  KEY_SLEEP <> SW_LID ->
  KEY_WLAN <> SW_LID ->
  do_event_action hw EVENT_SLEEP st
    = (tt, log (SparseKeymapReportEntry
                  (mk_key_entry KE_KEY EVENT_SLEEP KEY_SLEEP) 1 true) st) /\
  do_event_action hw EVENT_WLAN st
    = (tt, log (SparseKeymapReportEntry
                  (mk_key_entry KE_KEY EVENT_WLAN KEY_WLAN) 1 true) st) /\
  (forall event,
      ~ In (u32_of event) (map u32_of hotkey_events) ->
      do_event_action hw event st = (tt, st)).
Proof.
  intros Hd Hs Hw.
  assert (Hsb : EVENT_SLEEP <> EVENT_DISPLAY_BRIGHTNESS /\
                EVENT_SLEEP <> EVENT_AUDIO_VOLUME /\
                EVENT_WLAN <> EVENT_DISPLAY_BRIGHTNESS /\
                EVENT_WLAN <> EVENT_AUDIO_VOLUME).
  { pose proof Hd as Hd'. distinct_facts Hd'. repeat split; congruence. }
  destruct Hsb as [Hs1 [Hs2 [Hw1 Hw2]]].
  split; [ | split ].
  - unfold do_event_action.
    rewrite (binding_without_case EVENT_SLEEP Hd (or_introl eq_refl)).
    rewrite Z.eqb_refl. cbn [negb].
    unfold get_event_key_entry. rewrite (scan_sleep_2 Hd).
    destruct (Z.eqb_spec EVENT_SLEEP EVENT_DISPLAY_BRIGHTNESS);
      [ contradiction | ].
    destruct (Z.eqb_spec EVENT_SLEEP EVENT_AUDIO_VOLUME); [ contradiction | ].
    unfold bind, ret, key_at, yeeloong_keymap. cbn [nth ke_keycode].
    destruct (Z.eqb_spec KEY_SLEEP SW_LID); [ contradiction | reflexivity ].
  - unfold do_event_action.
    rewrite (binding_without_case EVENT_WLAN Hd (or_intror eq_refl)).
    rewrite Z.eqb_refl. cbn [negb].
    unfold get_event_key_entry. rewrite (scan_wlan_6 Hd).
    destruct (Z.eqb_spec EVENT_WLAN EVENT_DISPLAY_BRIGHTNESS);
      [ contradiction | ].
    destruct (Z.eqb_spec EVENT_WLAN EVENT_AUDIO_VOLUME); [ contradiction | ].
    unfold bind, ret, key_at, yeeloong_keymap. cbn [nth ke_keycode].
    destruct (Z.eqb_spec KEY_WLAN SW_LID); [ contradiction | reflexivity ].
  - intros event Hnot. unfold do_event_action.
    rewrite binding_unbound;
      try (intros E; apply Hnot; rewrite E; unfold hotkey_events;
           cbn [map In]; tauto).
    rewrite Z.eqb_refl. cbn [negb].
    unfold get_event_key_entry. rewrite (scan_unknown event Hnot).
    reflexivity.
Qed.

Section DispatchFrame.

Variable P : driver -> Prop.
Hypothesis P_log : forall e st, P st -> P (log e st).

Ltac frame_leaf :=
  first
    [ apply stable_ec_read | apply stable_crt_detect_handler
    | apply stable_camera_handler | apply stable_usb2_handler
    | apply stable_usb0_handler | apply stable_displaytoggle_handler
    | apply stable_ac_bat_handler | apply stable_report_lid_switch
    | apply stable_emit ];
  exact P_log.

(** The dispatcher away from the video mode event. *)
Lemma stable_do_event_action_other (event : Z) :
  event <> EVENT_SWITCHVIDEOMODE ->
  (forall status, stable P (get_event_key_entry event status)) ->
  stable P (do_event_action hw event).
Proof.
  intros Hne Hkey. unfold do_event_action, event_binding.
  destruct (Z.eqb_spec event EVENT_SWITCHVIDEOMODE) as [E | _];
    [ contradiction | ].
  repeat match goal with
         | |- context [if ?a =? ?b then _ else _] =>
             lazymatch a with event => destruct (a =? b) end
         end;
    repeat stable_step; try apply Hkey; frame_leaf.
Qed.

End DispatchFrame.

(** X6.  What an event can do to the statics: the flag of the power-supply
    registration is never touched; the rotation index is touched by the
    video mode event only (a CRT plug event sets the outputs and leaves the
    index alone); the stored brightness sample by the brightness event
    only; the stored volume sample by the volume event only. *)
Theorem do_event_action_frame (event : Z) (st : driver) :
  ac_bat_initialized (snd (do_event_action hw event st))
    = ac_bat_initialized st /\
  (event <> EVENT_SWITCHVIDEOMODE ->
   video_output_status (snd (do_event_action hw event st))
     = video_output_status st) /\
  (event <> EVENT_DISPLAY_BRIGHTNESS ->
   old_brightness_status (snd (do_event_action hw event st))
     = old_brightness_status st) /\
  (event <> EVENT_AUDIO_VOLUME ->
   old_volume_status (snd (do_event_action hw event st))
     = old_volume_status st).
Proof.
  split; [ | split; [ | split ] ].
  - apply (stable_do_event_action hw
             (fun s => ac_bat_initialized s = ac_bat_initialized st));
      [ intros e s H; exact H | | | reflexivity ].
    + intros status. apply stable_switchvideomode_handler; auto.
    + intros status. apply stable_get_event_key_entry; auto.
  - intros Hne.
    apply (stable_do_event_action_other
             (fun s => video_output_status s = video_output_status st));
      [ intros e s H; exact H | exact Hne | | reflexivity ].
    intros status. apply stable_get_event_key_entry; auto.
  - intros Hne.
    apply (stable_do_event_action hw
             (fun s => old_brightness_status s = old_brightness_status st));
      [ intros e s H; exact H | | | reflexivity ].
    + intros status. apply stable_switchvideomode_handler; auto.
    + intros status. apply stable_get_event_key_entry; auto.
  - intros Hne.
    apply (stable_do_event_action hw
             (fun s => old_volume_status s = old_volume_status st));
      [ intros e s H; exact H | | | reflexivity ].
    + intros status. apply stable_switchvideomode_handler; auto.
    + intros status. apply stable_get_event_key_entry; auto.
Qed.

End Dispatch.

(** ** Registers are read, modified and written back *)

Lemma u32_of_idem (x : Z) : u32_of (u32_of x) = u32_of x.
Proof. unfold u32_of. apply Z.mod_mod. lia. Qed.

Lemma u32_of_clear_bit_10 (x : Z) :
  u32_of (Z.land (u32_of x) (Z.lnot (Z.shiftl 1 10)))
    = Z.clearbit (u32_of x) 10.
Proof.
  assert (E : Z.land (u32_of x) (Z.lnot (Z.shiftl 1 10))
              = Z.clearbit (u32_of x) 10).
  { rewrite Z.clearbit_spec', Z.ldiff_land. reflexivity. }
  rewrite E. unfold u32_of at 1. apply high_bits_mod; [ lia | ].
  intros m Hm. rewrite Z.clearbit_eqb.
  unfold u32_of. rewrite mod_high_bits by lia. reflexivity.
Qed.

Lemma u32_of_lor_small (x c : Z) :
  0 <= c < 2 ^ 32 -> u32_of (Z.lor (u32_of x) c) = Z.lor (u32_of x) c.
Proof.
  intros Hc. unfold u32_of at 1. apply high_bits_mod; [ lia | ].
  intros m Hm. rewrite Z.lor_spec.
  unfold u32_of. rewrite mod_high_bits by lia. cbn [orb].
  rewrite <- (Z.mod_small c (2 ^ 32)) by exact Hc.
  apply mod_high_bits; lia.
Qed.

Section ReadModifyWrite.

Context {hdr : Headers}.
Variable hw : Hardware.

Lemma display_vo_set_CRT_trace (on : Z) (st : driver) :
  let value := u8_of (hw_inb hw (trace st ++ [Outb 0x21 0x3c4]) 0x3c5) in
  trace (snd (display_vo_set hw CRT on st))
    = trace st ++ [Outb 0x21 0x3c4; Inb 0x3c5 value; Outb 0x21 0x3c4;
                   Outb (if on =? 0 then Z.setbit value 7
                         else Z.clearbit value 7) 0x3c5].
Proof.
  intros value. unfold display_vo_set, bind, outb, inb, emit, modify.
  cbn [snd trace log Z.eqb CRT LCD]. fold value.
  unfold truthy. destruct (on =? 0); cbn [negb]; subst value.
  - rewrite u8_of_setbit by lia. rewrite <- !app_assoc. reflexivity.
  - rewrite u8_of_clearbit. rewrite <- !app_assoc. reflexivity.
Qed.

(** X7.  [display_vo_set] is a read-modify-write of one sequencer register
    through the index and data ports: register 0x31 for the LCD, 0x21 for
    the CRT.  For the LCD the value read is written back with bit 1 set, and
    bit 0 as well when switching on; no bit that was read set is ever
    cleared, also when switching off.  For the CRT bit 7 is written clear to
    switch on and set to switch off, all other bits as they were read. *)
Theorem display_vo_set_read_modify_write (on : Z) (st : driver) :
  (let value := u8_of (hw_inb hw (trace st ++ [Outb 0x31 0x3c4]) 0x3c5) in
   let written := Z.lor value (if on =? 0 then 0x02 else 0x03) in
   trace (snd (display_vo_set hw LCD on st))
     = trace st ++ [Outb 0x31 0x3c4; Inb 0x3c5 value; Outb 0x31 0x3c4;
                    Outb written 0x3c5] /\
   Z.testbit written 1 = true /\
   (on <> 0 -> Z.testbit written 0 = true) /\
   (on = 0 -> Z.testbit written 0 = Z.testbit value 0) /\
   (forall n, Z.testbit value n = true -> Z.testbit written n = true)) /\
  (let value := u8_of (hw_inb hw (trace st ++ [Outb 0x21 0x3c4]) 0x3c5) in
   let written := if on =? 0 then Z.setbit value 7 else Z.clearbit value 7 in
   trace (snd (display_vo_set hw CRT on st))
     = trace st ++ [Outb 0x21 0x3c4; Inb 0x3c5 value; Outb 0x21 0x3c4;
                    Outb written 0x3c5] /\
   Z.testbit written 7 = (on =? 0) /\
   (forall n, n <> 7 -> Z.testbit written n = Z.testbit value n)).
Proof.
  split.
  - intros value written. split; [ apply display_vo_set_LCD_trace | ].
    subst written. repeat split.
    + rewrite Z.lor_spec. destruct (on =? 0); cbn; apply orb_true_r.
    + intros Hon. rewrite Z.lor_spec.
      destruct (Z.eqb_spec on 0); [ contradiction | ]. apply orb_true_r.
    + intros Hoff. rewrite Z.lor_spec.
      destruct (Z.eqb_spec on 0); [ | contradiction ]. apply orb_false_r.
    + intros n Hbit. rewrite Z.lor_spec, Hbit. reflexivity.
  - intros value written. split; [ apply display_vo_set_CRT_trace | ].
    subst written. split.
    + destruct (on =? 0).
      * apply Z.setbit_eq. lia.
      * apply Z.clearbit_eq.
    + intros n Hn. destruct (on =? 0).
      * destruct (Z_lt_le_dec n 0) as [Hneg | Hpos].
        -- now rewrite !Z.testbit_neg_r.
        -- apply Z.setbit_neq; lia.
      * apply Z.clearbit_neq. congruence.
Qed.

(** X8.  When [sci_irq_init] succeeds, what it did is: read the GPIO base,
    flush one event query, wait, then, with the interrupts masked and
    nothing else in between, read each of the MSRs 0x80000024, 0x80000025
    and 0x80000023 and write it back, the high word as read and the low
    word with bit 10 cleared for the first two and 0x0a or-ed in for the
    third; then, interrupts restored, write 0x800 to the three GPIO ports at
    0xA0, 0xA4 and 0xB8 above the base. *)
Theorem sci_irq_init_arms (st : driver) :
  fst (sci_irq_init hw st) = 0 ->
  exists hi0 lo0 hi1 lo1 hi2 lo2 hi3 lo3,
    trace (snd (sci_irq_init hw st))
      = trace st ++
        [Rdmsr DIVIL_MSR_REG_DIVIL_LBAR_GPIO hi0 lo0;
         EcQueryEventNum 0;
         Mdelay 10000;
         LocalIrqSave;
         Rdmsr 0x80000024 hi1 lo1; Wrmsr 0x80000024 hi1 (Z.clearbit lo1 10);
         Rdmsr 0x80000025 hi2 lo2; Wrmsr 0x80000025 hi2 (Z.clearbit lo2 10);
         Rdmsr 0x80000023 hi3 lo3; Wrmsr 0x80000023 hi3 (Z.lor lo3 0x0a);
         LocalIrqRestore;
         Outl 0x800 (Z.lor (Z.land lo0 0xff00) 0xA0);
         Outl 0x800 (Z.lor (Z.land lo0 0xff00) 0xA4);
         Outl 0x800 (Z.lor (Z.land lo0 0xff00) 0xB8)].
Proof.
  unfold sci_irq_init, bind, _rdmsr, ec_query_event_num, mdelay, _wrmsr, outl,
    emit, modify, ret.
  destruct (hw_rdmsr hw (trace st) DIVIL_MSR_REG_DIVIL_LBAR_GPIO)
    as [hi0 lo0].
  cbn [fst snd trace log].
  set (r := int_of (hw_ec_query_event_num hw _)).
  unfold truthy. destruct (Z.eqb_spec r 0) as [E0 | NE0]; cbn [negb].
  - intros _.
    repeat match goal with
           | |- context [hw_rdmsr hw ?h ?m] =>
               let hi := fresh "hi" in
               let lo := fresh "lo" in
               destruct (hw_rdmsr hw h m) as [hi lo]; cbn [fst snd trace log]
           end.
    rewrite !u32_of_idem, !u32_of_clear_bit_10.
    change (Z.shiftl 10 0) with 10.
    rewrite u32_of_lor_small by lia.
    change (u32_of 2048) with 2048.
    rewrite E0. rewrite <- !app_assoc. cbn [app].
    do 8 eexists. reflexivity.
  - cbn [fst]. intros H. contradiction.
Qed.

End ReadModifyWrite.

(** * The other sub-drivers *)

(** ** Backlight *)

Section Backlight.

Context {hdr : Headers} {sub : SubdriverHeaders}.
Variable hw : Hardware.

Lemma clamp_val_range (val lo hi : Z) :
  lo <= hi -> lo <= clamp_val val lo hi <= hi.
Proof. unfold clamp_val. lia. Qed.

(** X9.  [yeeloong_set_brightness] always returns 0 and remembers a level
    between 0 and [MAX_BRIGHTNESS], which is 0 when the display is blanked
    or powered down.  When that level is the remembered one the EC is not
    touched.  Otherwise the EC's brightness register is read, and the level
    is written only if the EC still holds the remembered level: while the
    EC is tuning the brightness itself the write is left out, and the
    level is remembered all the same. *)
Theorem yeeloong_set_brightness_guarded
  (bd : backlight_properties) (old_level : Z) (st : driver) :
  let r := yeeloong_set_brightness hw bd old_level st in
  let level := snd (fst r) in
  let current := u8_of (hw_ec_read hw (trace st) REG_DISPLAY_BRIGHTNESS) in
  fst (fst r) = 0 /\
  0 <= level <= MAX_BRIGHTNESS /\
  (fb_blank bd <> FB_BLANK_UNBLANK \/ power bd <> FB_BLANK_UNBLANK ->
   level = 0) /\
  (old_level = level -> snd r = st) /\
  (old_level <> level -> current = old_level ->
   snd r = log (EcWrite REG_DISPLAY_BRIGHTNESS level)
             (log (EcRead REG_DISPLAY_BRIGHTNESS current) st)) /\
  (old_level <> level -> current <> old_level ->
   snd r = log (EcRead REG_DISPLAY_BRIGHTNESS current) st).
Proof.
  intros r level current. subst r level.
  unfold yeeloong_set_brightness.
  set (wanted := u32_of _).
  set (level := clamp_val wanted 0 MAX_BRIGHTNESS).
  assert (Hrange : 0 <= level <= MAX_BRIGHTNESS)
    by (apply clamp_val_range; unfold MAX_BRIGHTNESS; lia).
  assert (Hblank : fb_blank bd <> FB_BLANK_UNBLANK \/
                   power bd <> FB_BLANK_UNBLANK -> level = 0).
  { intros H. subst level wanted.
    destruct (Z.eqb_spec (fb_blank bd) FB_BLANK_UNBLANK);
      destruct (Z.eqb_spec (power bd) FB_BLANK_UNBLANK);
      cbn [andb]; try reflexivity.
    destruct H; contradiction. }
  destruct (Z.eqb_spec old_level level) as [E | NE]; cbn [negb].
  - cbn [ret fst snd]. rewrite E. repeat split; auto; try lia;
      intros; contradiction.
  - unfold bind, ec_read, ec_write, emit, modify, ret. fold current.
    assert (Hu8 : u8_of level = level)
      by (apply u8_of_small; unfold MAX_BRIGHTNESS in Hrange; lia).
    destruct (Z.eqb_spec old_level current) as [Ec | Nc];
      cbn [fst snd]; rewrite ?Hu8; repeat split; auto; try lia;
      intros; congruence.
Qed.

(** X10.  Asking again for the same thing does nothing: a second call of
    [yeeloong_set_brightness] with the same properties, right after the
    first, leaves the EC alone, whether or not the first call got its level
    written.  A level left out while the EC was tuning is therefore not
    written by repeating the request. *)
Theorem yeeloong_set_brightness_settles
  (bd : backlight_properties) (old_level : Z) (st : driver) :
  let r := yeeloong_set_brightness hw bd old_level st in
  yeeloong_set_brightness hw bd (snd (fst r)) (snd r)
    = ((0, snd (fst r)), snd r).
Proof.
  intros r.
  set (level :=
         clamp_val
           (u32_of (if (fb_blank bd =? FB_BLANK_UNBLANK)
                       && (power bd =? FB_BLANK_UNBLANK)
                    then brightness bd else 0)) 0 MAX_BRIGHTNESS).
  assert (Hr : exists st', r = ((0, level), st')).
  { subst r. unfold yeeloong_set_brightness. fold level.
    destruct (Z.eqb_spec old_level level) as [E | NE]; cbn [negb].
    - rewrite E. eexists. reflexivity.
    - unfold bind, ec_read.
      destruct (old_level =? u8_of _); eexists; reflexivity. }
  destruct Hr as [st' Hr]. rewrite Hr. cbn [fst snd].
  unfold yeeloong_set_brightness. fold level. rewrite Z.eqb_refl.
  reflexivity.
Qed.

End Backlight.

(** ** Reading pairs of EC registers *)

Lemma lor_shiftl_8 (a b : Z) :
  0 <= b < 256 -> Z.lor (Z.shiftl a 8) b = a * 256 + b.
Proof.
  intros Hb. rewrite Z.shiftl_mul_pow2 by lia. change (2 ^ 8) with 256.
  assert (Hland : Z.land (a * 256) b = 0).
  { apply Z.bits_inj'. intros n Hn. rewrite Z.land_spec, Z.bits_0.
    destruct (Z.ltb_spec n 8) as [Hlt | Hge].
    - change 256 with (2 ^ 8). rewrite Z.mul_pow2_bits_low by lia.
      reflexivity.
    - replace (Z.testbit b n) with false; [ apply andb_false_r | ].
      symmetry.
      rewrite <- (Z.mod_small b (2 ^ 8)) by (change (2 ^ 8) with 256; lia).
      apply mod_high_bits; lia. }
  rewrite Z.add_nocarry_lxor by exact Hland.
  symmetry. now apply Z.lxor_lor.
Qed.

Section Pairs.

Variable hw : Hardware.
Variable left_first : bool.

Lemma operands_ec_read (reg_l reg_r : Z) (st : driver) :
  exists l r,
    0 <= l < 256 /\ 0 <= r < 256 /\
    operands left_first (ec_read hw reg_l) (ec_read hw reg_r) st
      = ((l, r),
         logs (if left_first then [EcRead reg_l l; EcRead reg_r r]
               else [EcRead reg_r r; EcRead reg_l l]) st).
Proof.
  unfold operands. destruct left_first; unfold bind, ec_read, ret;
    cbn [trace log]; do 2 eexists;
    (split; [ apply u8_of_range | split; [ apply u8_of_range | reflexivity ] ]).
Qed.

Lemma get_bat_info_reads (reg_high reg_low : Z) (st : driver) :
  exists high low,
    0 <= high < 256 /\ 0 <= low < 256 /\
    get_bat_info hw left_first reg_high reg_low st
      = (high * 256 + low,
         logs (if left_first then [EcRead reg_high high; EcRead reg_low low]
               else [EcRead reg_low low; EcRead reg_high high]) st).
Proof.
  unfold get_bat_info.
  destruct (operands_ec_read reg_high reg_low st)
    as [high [low [Hh [Hl E]]]].
  exists high, low. split; [ exact Hh | ]. split; [ exact Hl | ].
  unfold bind. rewrite E. cbn [fst snd ret].
  now rewrite lor_shiftl_8.
Qed.

End Pairs.

(** ** Fan and temperature *)

Section Hwmon.

Context {hdr : Headers} {sub : SubdriverHeaders}.
Variable hw : Hardware.
Variable left_first : bool.

(** X11.  [set_fan_pwm] acts in manual mode only: when the mode register
    does not read [BIT_FAN_MANUAL] the request is dropped after that one
    read.  In manual mode the level written is the request clamped to
    [[0, 3]]; a level above 0 is preceded by switching the fan on, and a
    request of 0 or less writes level 0 without touching the fan
    control. *)
Theorem set_fan_pwm_clamped (value : Z) (st : driver) :
  let mode := u8_of (hw_ec_read hw (trace st) REG_FAN_AUTO_MAN_SWITCH) in
  let read := log (EcRead REG_FAN_AUTO_MAN_SWITCH mode) st in
  (mode <> BIT_FAN_MANUAL -> set_fan_pwm hw value st = (tt, read)) /\
  (mode = BIT_FAN_MANUAL -> value <= 0 ->
   set_fan_pwm hw value st = (tt, log (EcWrite REG_FAN_SPEED_LEVEL 0) read)) /\
  (mode = BIT_FAN_MANUAL -> 0 < value ->
   1 <= Z.min value 3 <= 3 /\
   set_fan_pwm hw value st
     = (tt, log (EcWrite REG_FAN_SPEED_LEVEL (Z.min value 3))
              (log (EcWrite REG_FAN_CONTROL ON) read))).
Proof.
  intros mode read. unfold set_fan_pwm, bind, ec_read. fold mode. fold read.
  split; [ | split ].
  - intros Hm. destruct (Z.eqb_spec mode BIT_FAN_MANUAL);
      [ contradiction | reflexivity ].
  - intros Hm Hv. destruct (Z.eqb_spec mode BIT_FAN_MANUAL);
      [ | contradiction ].
    cbn [negb]. replace (clamp_val value 0 3) with 0
      by (unfold clamp_val; lia).
    reflexivity.
  - intros Hm Hv. split; [ lia | ].
    destruct (Z.eqb_spec mode BIT_FAN_MANUAL); [ | contradiction ].
    cbn [negb]. replace (clamp_val value 0 3) with (Z.min value 3)
      by (unfold clamp_val; lia).
    destruct (Z.gtb_spec (Z.min value 3) 0) as [_ | Hle]; [ | lia ].
    unfold ec_write, emit, modify. cbn [fst snd].
    rewrite (u8_of_small (Z.min value 3)) by lia.
    reflexivity.
Qed.

Lemma last_ec_write_snoc (history : list io_event) (e : io_event) (reg : Z) :
  last_ec_write (history ++ [e]) reg
    = match e with
      | EcWrite r v => if r =? reg then Some v else last_ec_write history reg
      | _ => last_ec_write history reg
      end.
Proof.
  unfold last_ec_write. rewrite fold_left_app. cbn [fold_left].
  destruct e; reflexivity.
Qed.

(** X12.  Setting the fan mode and reading it back, on an EC whose mode and
    level registers keep what is written to them: full speed (0) and
    automatic (2) read back as set.  Manual (1) reads back as 1 unless the
    speed level stands at [MAX_FAN_SPEED], in which case it reads back as
    0, full speed.  Any other mode is ignored by [set_fan_pwm_enable]. *)
Theorem fan_pwm_enable_round_trip (st : driver) :
  ec_retains hw REG_FAN_AUTO_MAN_SWITCH ->
  ec_retains hw REG_FAN_SPEED_LEVEL ->
  REG_FAN_SPEED_LEVEL <> REG_FAN_AUTO_MAN_SWITCH ->
  0 <= BIT_FAN_MANUAL < 256 ->
  0 <= BIT_FAN_AUTO < 256 ->
  BIT_FAN_AUTO <> BIT_FAN_MANUAL ->
  fst (get_fan_pwm_enable hw (snd (set_fan_pwm_enable 0 st))) = 0 /\
  fst (get_fan_pwm_enable hw (snd (set_fan_pwm_enable 2 st))) = 2 /\
  (let level :=
     u8_of (hw_ec_read hw
              (trace st ++ [EcWrite REG_FAN_AUTO_MAN_SWITCH BIT_FAN_MANUAL])
              REG_FAN_SPEED_LEVEL) in
   fst (get_fan_pwm_enable hw (snd (set_fan_pwm_enable 1 st)))
     = if level =? MAX_FAN_SPEED then 0 else 1) /\
  (forall mode, mode <> 0 -> mode <> 1 -> mode <> 2 ->
     set_fan_pwm_enable mode st = (tt, st)).
Proof.
  intros Hsw Hlv Hregs Hman Hauto Hne.
  assert (Esw : (REG_FAN_SPEED_LEVEL =? REG_FAN_AUTO_MAN_SWITCH) = false)
    by now apply Z.eqb_neq.
  split; [ | split; [ | split ] ].
  - unfold set_fan_pwm_enable, get_fan_pwm_enable, bind, ec_write, ec_read,
      emit, modify, ret.
    cbn [Z.eqb Pos.eqb snd fst trace log].
    rewrite (u8_of_small BIT_FAN_MANUAL) by exact Hman.
    rewrite (Hlv _ (u8_of MAX_FAN_SPEED))
      by (repeat (rewrite last_ec_write_snoc; cbn beta iota);
          rewrite ?Esw, ?Z.eqb_refl; reflexivity).
    rewrite (Hsw _ BIT_FAN_MANUAL)
      by (repeat (rewrite last_ec_write_snoc; cbn beta iota);
          rewrite ?Esw, ?Z.eqb_refl; reflexivity).
    rewrite (u8_of_small BIT_FAN_MANUAL) by exact Hman.
    rewrite !Z.eqb_refl. reflexivity.
  - unfold set_fan_pwm_enable, get_fan_pwm_enable, bind, ec_write, ec_read,
      emit, modify, ret.
    cbn [Z.eqb Pos.eqb snd fst trace log].
    rewrite (u8_of_small BIT_FAN_AUTO) by exact Hauto.
    rewrite (Hsw _ BIT_FAN_AUTO)
      by (repeat (rewrite last_ec_write_snoc; cbn beta iota);
          rewrite ?Esw, ?Z.eqb_refl; reflexivity).
    rewrite (u8_of_small BIT_FAN_AUTO) by exact Hauto.
    destruct (Z.eqb_spec BIT_FAN_AUTO BIT_FAN_MANUAL); [ contradiction | ].
    rewrite andb_false_r. reflexivity.
  - intros level.
    unfold set_fan_pwm_enable, get_fan_pwm_enable, bind, ec_write, ec_read,
      emit, modify, ret.
    cbn [Z.eqb Pos.eqb snd fst trace log].
    rewrite (u8_of_small BIT_FAN_MANUAL) by exact Hman.
    fold level.
    rewrite (Hsw _ BIT_FAN_MANUAL)
      by (repeat (rewrite last_ec_write_snoc; cbn beta iota);
          rewrite ?Esw, ?Z.eqb_refl; reflexivity).
    rewrite (u8_of_small BIT_FAN_MANUAL) by exact Hman.
    rewrite Z.eqb_refl, andb_true_r.
    destruct (level =? MAX_FAN_SPEED); reflexivity.
  - intros mode H0 H1 H2. unfold set_fan_pwm_enable.
    destruct (Z.eqb_spec mode 0); [ contradiction | ].
    destruct (Z.eqb_spec mode 1); [ contradiction | ].
    destruct (Z.eqb_spec mode 2); [ contradiction | ].
    reflexivity.
Qed.

(** X13.  The fan speed is [FAN_SPEED_DIVIDER] divided by a 12-bit count
    made of the low four bits of the high register and of the low register.
    The count is at most 4095; the function has no value exactly when the
    count is 0, the division being by zero then, and otherwise, the divider
    not being negative, a speed between 0 and the divider. *)
Theorem get_fan_rpm_divides (st : driver) :
  exists high low,
    0 <= high < 256 /\ 0 <= low < 256 /\
    let count := Z.land high 0x0f * 256 + low in
    0 <= count <= 4095 /\
    get_fan_rpm hw left_first st
      = (if count =? 0 then None else Some (Z.quot FAN_SPEED_DIVIDER count),
         logs (if left_first
               then [EcRead REG_FAN_SPEED_HIGH high; EcRead REG_FAN_SPEED_LOW low]
               else [EcRead REG_FAN_SPEED_LOW low; EcRead REG_FAN_SPEED_HIGH high])
           st) /\
    (fst (get_fan_rpm hw left_first st) = None
     <-> Z.land high 0x0f = 0 /\ low = 0) /\
    (0 <= FAN_SPEED_DIVIDER ->
     forall rpm, fst (get_fan_rpm hw left_first st) = Some rpm ->
                 0 <= rpm <= FAN_SPEED_DIVIDER).
Proof.
  destruct (operands_ec_read hw left_first REG_FAN_SPEED_HIGH
              REG_FAN_SPEED_LOW st) as [high [low [Hh [Hl E]]]].
  exists high, low. split; [ exact Hh | ]. split; [ exact Hl | ].
  intros count.
  assert (Hnib : 0 <= Z.land high 0x0f <= 15).
  { change (Z.land high 15) with (Z.land high (Z.ones 4)).
    rewrite Z.land_ones by lia.
    change (2 ^ 4) with 16. pose proof (Z.mod_pos_bound high 16). lia. }
  assert (Hcount : 0 <= count <= 4095) by (subst count; lia).
  assert (Eq : get_fan_rpm hw left_first st
               = (if count =? 0 then None
                  else Some (Z.quot FAN_SPEED_DIVIDER count),
                  logs (if left_first
                        then [EcRead REG_FAN_SPEED_HIGH high;
                              EcRead REG_FAN_SPEED_LOW low]
                        else [EcRead REG_FAN_SPEED_LOW low;
                              EcRead REG_FAN_SPEED_HIGH high]) st)).
  { unfold get_fan_rpm, bind. rewrite E. cbn [fst snd].
    rewrite lor_shiftl_8 by exact Hl. fold count.
    destruct (count =? 0); reflexivity. }
  split; [ exact Hcount | ]. split; [ exact Eq | ].
  rewrite Eq. cbn [fst]. split.
  - destruct (Z.eqb_spec count 0) as [E0 | N0].
    + split; [ intros _; subst count; lia | reflexivity ].
    + split; [ discriminate | intros [H1 H2]; subst count; lia ].
  - intros Hdiv rpm. destruct (Z.eqb_spec count 0) as [E0 | N0];
      [ discriminate | ].
    intros H. injection H as H. subst rpm.
    assert (0 < count) by lia.
    rewrite Z.quot_div_nonneg by lia.
    split.
    + apply Z.div_pos; lia.
    + apply Z.div_le_upper_bound; nia.
Qed.

(** X14.  Signed readings.  The CPU temperature is the EC byte read as a
    signed 8-bit number, in millidegrees: bytes from 128 up are negative,
    and the result lies between -128000 and 127000.  The battery current is
    the negated 16-bit reading taken as signed: readings from 32768 up give
    a positive current, and the result lies between -32767 and 32768. *)
Theorem signed_readings (st : driver) :
  (let raw := u8_of (hw_ec_read hw (trace st) REG_TEMPERATURE_VALUE) in
   get_cpu_temp hw st
     = ((if raw <? 128 then raw else raw - 256) * 1000,
        log (EcRead REG_TEMPERATURE_VALUE raw) st) /\
   -128000 <= fst (get_cpu_temp hw st) <= 127000) /\
  (exists high low,
      0 <= high < 256 /\ 0 <= low < 256 /\
      let raw := high * 256 + low in
      get_battery_current hw left_first st
        = ((if raw <? 32768 then - raw else 65536 - raw),
           logs (if left_first
                 then [EcRead REG_BAT_CURRENT_HIGH high;
                       EcRead REG_BAT_CURRENT_LOW low]
                 else [EcRead REG_BAT_CURRENT_LOW low;
                       EcRead REG_BAT_CURRENT_HIGH high]) st) /\
      -32767 <= fst (get_battery_current hw left_first st) <= 32768).
Proof.
  split.
  - intros raw.
    assert (Hraw : 0 <= raw < 256) by apply u8_of_range.
    assert (Es8 : s8_of raw = if raw <? 128 then raw else raw - 256).
    { unfold s8_of. change (2 ^ 7) with 128. change (2 ^ 8) with 256.
      destruct (Z.ltb_spec raw 128).
      - rewrite Z.mod_small by lia. lia.
      - replace (raw + 128) with (raw - 128 + 1 * 256) by lia.
        rewrite Z.mod_add by lia. rewrite Z.mod_small by lia. lia. }
    assert (E : get_cpu_temp hw st
                = ((if raw <? 128 then raw else raw - 256) * 1000,
                   log (EcRead REG_TEMPERATURE_VALUE raw) st)).
    { unfold get_cpu_temp, bind, ec_read, ret. fold raw. now rewrite Es8. }
    split; [ exact E | ]. rewrite E. cbn [fst].
    destruct (Z.ltb_spec raw 128); lia.
  - destruct (get_bat_info_reads hw left_first REG_BAT_CURRENT_HIGH
                REG_BAT_CURRENT_LOW st) as [high [low [Hh [Hl E]]]].
    exists high, low. split; [ exact Hh | ]. split; [ exact Hl | ].
    intros raw.
    assert (Hraw : 0 <= raw < 65536) by (subst raw; lia).
    assert (Es16 : s16_of raw = if raw <? 32768 then raw else raw - 65536).
    { unfold s16_of. change (2 ^ 15) with 32768. change (2 ^ 16) with 65536.
      destruct (Z.ltb_spec raw 32768).
      - rewrite Z.mod_small by lia. lia.
      - replace (raw + 32768) with (raw - 32768 + 1 * 65536) by lia.
        rewrite Z.mod_add by lia. rewrite Z.mod_small by lia. lia. }
    assert (Eq : get_battery_current hw left_first st
                 = ((if raw <? 32768 then - raw else 65536 - raw),
                    logs (if left_first
                          then [EcRead REG_BAT_CURRENT_HIGH high;
                                EcRead REG_BAT_CURRENT_LOW low]
                          else [EcRead REG_BAT_CURRENT_LOW low;
                                EcRead REG_BAT_CURRENT_HIGH high]) st)).
    { unfold get_battery_current, bind. rewrite E. cbn [fst snd ret].
      fold raw. rewrite Es16. destruct (raw <? 32768); [ reflexivity | ].
      replace (- (raw - 65536)) with (65536 - raw) by lia. reflexivity. }
    split; [ exact Eq | ]. rewrite Eq. cbn [fst].
    destruct (Z.ltb_spec raw 32768); lia.
Qed.

End Hwmon.

(** ** AC adapter and battery *)

Section Battery.

Context {hdr : Headers} {sub : SubdriverHeaders}.
Variable hw : Hardware.
Variable left_first : bool.

Ltac run_props :=
  unfold yeeloong_get_bat_props, yeeloong_get_ac_props, get_battery_current,
    get_battery_voltage, get_battery_temp, get_manufacturer, get_bat_status,
    is_bat_in, is_ac_in, get_bat_info, operands;
  rewrite ?bind_eq; unfold ret; cbn [fst snd];
  repeat match goal with
         | |- context [if ?b then _ else _] => destruct b; rewrite ?bind_eq
         end;
  cbn [fst snd].

Lemma bat_props_answered (psp : power_supply_property) (st : driver) :
  In psp yeeloong_bat_props ->
  exists v, fst (yeeloong_get_bat_props hw left_first psp st) = (0, Some v).
Proof.
  intros Hin.
  destruct psp;
    try (exfalso; cbn in Hin; intuition discriminate);
    run_props; eexists; reflexivity.
Qed.

(** X15.  The property handlers and the property tables agree.  For every
    property listed in [yeeloong_bat_props] the battery handler returns 0
    and fills in a value; for any property not listed it returns [-EINVAL],
    fills in nothing and does not touch the EC.  The same holds of the AC
    handler and [yeeloong_ac_props], whose one property, online, is
    answered with 0 or 1. *)
Theorem get_props_agree_with_tables
  (psp : power_supply_property) (st : driver) :
  (In psp yeeloong_bat_props ->
   exists v, fst (yeeloong_get_bat_props hw left_first psp st) = (0, Some v)) /\
  (~ In psp yeeloong_bat_props ->
   yeeloong_get_bat_props hw left_first psp st = ((- EINVAL, None), st)) /\
  (In psp yeeloong_ac_props ->
   exists b, fst (yeeloong_get_ac_props hw psp st)
             = (0, Some (intval (int_of_bool b)))) /\
  (~ In psp yeeloong_ac_props ->
   yeeloong_get_ac_props hw psp st = ((- EINVAL, None), st)).
Proof.
  split; [ apply bat_props_answered | ]. split; [ | split ].
  - intros Hnot. destruct psp; try reflexivity;
      exfalso; apply Hnot; cbn; tauto.
  - intros Hin. destruct psp;
      try (exfalso; cbn in Hin; intuition discriminate).
    run_props. eexists. reflexivity.
  - intros Hnot. destruct psp; try reflexivity.
    exfalso. apply Hnot. cbn. tauto.
Qed.

(** The properties that ask first whether a battery is there. *)
Lemma battery_absent_answer (psp : power_supply_property) (st : driver) :
  let status := u8_of (hw_ec_read hw (trace st) REG_BAT_STATUS) in
  Z.land status BIT_BAT_STATUS_IN = 0 ->
  In psp [POWER_SUPPLY_PROP_PRESENT; POWER_SUPPLY_PROP_CURRENT_NOW;
          POWER_SUPPLY_PROP_VOLTAGE_NOW; POWER_SUPPLY_PROP_TEMP;
          POWER_SUPPLY_PROP_CAPACITY; POWER_SUPPLY_PROP_TIME_TO_EMPTY_NOW;
          POWER_SUPPLY_PROP_CAPACITY_LEVEL; POWER_SUPPLY_PROP_HEALTH] ->
  yeeloong_get_bat_props hw left_first psp st
    = ((0, Some (intval
                   match psp with
                   | POWER_SUPPLY_PROP_CAPACITY_LEVEL =>
                       POWER_SUPPLY_CAPACITY_LEVEL_UNKNOWN
                   | POWER_SUPPLY_PROP_HEALTH => POWER_SUPPLY_HEALTH_UNKNOWN
                   | _ => 0
                   end)),
       log (EcRead REG_BAT_STATUS status) st).
Proof.
  intros status Habsent Hin.
  assert (Ein : is_bat_in hw st
                = (false, log (EcRead REG_BAT_STATUS status) st)).
  { unfold is_bat_in, bind, ec_read, ret. fold status.
    rewrite Habsent. reflexivity. }
  destruct psp; try (exfalso; cbn in Hin; intuition discriminate);
    unfold yeeloong_get_bat_props; rewrite bind_eq, Ein; reflexivity.
Qed.

(** X16.  Without a battery (the presence bit of the status register reads
    clear) the handler answers after that one read of the status register:
    present, current, voltage, temperature, capacity and time to empty are
    0, capacity level and health are "unknown".  No battery data register
    is read. *)
Theorem battery_absent (psp : power_supply_property) (st : driver) :
  let status := u8_of (hw_ec_read hw (trace st) REG_BAT_STATUS) in
  Z.land status BIT_BAT_STATUS_IN = 0 ->
  In psp [POWER_SUPPLY_PROP_PRESENT; POWER_SUPPLY_PROP_CURRENT_NOW;
          POWER_SUPPLY_PROP_VOLTAGE_NOW; POWER_SUPPLY_PROP_TEMP;
          POWER_SUPPLY_PROP_CAPACITY; POWER_SUPPLY_PROP_TIME_TO_EMPTY_NOW;
          POWER_SUPPLY_PROP_CAPACITY_LEVEL; POWER_SUPPLY_PROP_HEALTH] ->
  yeeloong_get_bat_props hw left_first psp st
    = ((0, Some (intval
                   match psp with
                   | POWER_SUPPLY_PROP_CAPACITY_LEVEL =>
                       POWER_SUPPLY_CAPACITY_LEVEL_UNKNOWN
                   | POWER_SUPPLY_PROP_HEALTH => POWER_SUPPLY_HEALTH_UNKNOWN
                   | _ => 0
                   end)),
       log (EcRead REG_BAT_STATUS status) st) /\
  trace (snd (yeeloong_get_bat_props hw left_first psp st))
    = trace st ++ [EcRead REG_BAT_STATUS status].
Proof.
  intros status Habsent Hin.
  pose proof (battery_absent_answer psp st Habsent Hin) as E.
  split; [ exact E | ]. rewrite E. reflexivity.
Qed.

(** X17.  Two estimates.  With a battery present the time to empty is
    54 * capacity - 20 seconds, the capacity being the 16-bit relative
    capacity read: it is negative exactly when the capacity reads 0.  The
    charge now is capacity * full charge * 10, whether a battery is present
    or not; as long as the capacity reads at most 100 the product is exact,
    no [int] overflow being possible. *)
Theorem battery_estimates (st : driver) :
  (let status := u8_of (hw_ec_read hw (trace st) REG_BAT_STATUS) in
   Z.land status BIT_BAT_STATUS_IN <> 0 ->
   exists high low,
     0 <= high < 256 /\ 0 <= low < 256 /\
     let capacity := high * 256 + low in
     yeeloong_get_bat_props hw left_first POWER_SUPPLY_PROP_TIME_TO_EMPTY_NOW st
       = ((0, Some (intval (54 * capacity - 20))),
          logs (if left_first
                then [EcRead REG_BAT_RELATIVE_CAP_HIGH high;
                      EcRead REG_BAT_RELATIVE_CAP_LOW low]
                else [EcRead REG_BAT_RELATIVE_CAP_LOW low;
                      EcRead REG_BAT_RELATIVE_CAP_HIGH high])
            (log (EcRead REG_BAT_STATUS status) st)) /\
     (54 * capacity - 20 < 0 <-> capacity = 0)) /\
  (exists cap_high cap_low full_high full_low,
      (0 <= cap_high < 256 /\ 0 <= cap_low < 256) /\
      (0 <= full_high < 256 /\ 0 <= full_low < 256) /\
      let capacity := cap_high * 256 + cap_low in
      let full := full_high * 256 + full_low in
      yeeloong_get_bat_props hw left_first POWER_SUPPLY_PROP_CHARGE_NOW st
        = ((0, Some (intval (int_of (int_of (capacity * full) * 10)))),
           logs (if left_first
                 then [EcRead REG_BAT_RELATIVE_CAP_HIGH cap_high;
                       EcRead REG_BAT_RELATIVE_CAP_LOW cap_low;
                       EcRead REG_BAT_FULLCHG_CAP_HIGH full_high;
                       EcRead REG_BAT_FULLCHG_CAP_LOW full_low]
                 else [EcRead REG_BAT_FULLCHG_CAP_LOW full_low;
                       EcRead REG_BAT_FULLCHG_CAP_HIGH full_high;
                       EcRead REG_BAT_RELATIVE_CAP_LOW cap_low;
                       EcRead REG_BAT_RELATIVE_CAP_HIGH cap_high]) st) /\
      (capacity <= 100 ->
       int_of (int_of (capacity * full) * 10) = capacity * full * 10)).
Proof.
  split.
  - intros status Hin.
    assert (Ein : is_bat_in hw st
                  = (true, log (EcRead REG_BAT_STATUS status) st)).
    { unfold is_bat_in, bind, ec_read, ret. fold status. unfold truthy.
      destruct (Z.eqb_spec (Z.land status BIT_BAT_STATUS_IN) 0);
        [ contradiction | reflexivity ]. }
    destruct (get_bat_info_reads hw left_first REG_BAT_RELATIVE_CAP_HIGH
                REG_BAT_RELATIVE_CAP_LOW
                (log (EcRead REG_BAT_STATUS status) st))
      as [high [low [Hh [Hl E]]]].
    exists high, low. split; [ exact Hh | ]. split; [ exact Hl | ].
    intros capacity. split; [ | lia ].
    unfold yeeloong_get_bat_props. rewrite bind_eq, Ein. cbn [fst snd].
    rewrite bind_eq, E. cbn [fst snd ret]. fold capacity.
    replace ((capacity - 3) * 54 + 142) with (54 * capacity - 20) by lia.
    reflexivity.
  - unfold yeeloong_get_bat_props, operands. destruct left_first.
    + destruct (get_bat_info_reads hw true REG_BAT_RELATIVE_CAP_HIGH
                  REG_BAT_RELATIVE_CAP_LOW st)
        as [ch [cl [Hch [Hcl Ec]]]].
      destruct (get_bat_info_reads hw true REG_BAT_FULLCHG_CAP_HIGH
                  REG_BAT_FULLCHG_CAP_LOW
                  (logs [EcRead REG_BAT_RELATIVE_CAP_HIGH ch;
                         EcRead REG_BAT_RELATIVE_CAP_LOW cl] st))
        as [fh [fl [Hfh [Hfl Ef]]]].
      exists ch, cl, fh, fl. split; [ split; assumption | ].
      split; [ split; assumption | ].
      cbv zeta. split.
      * rewrite !bind_eq, Ec. cbn [fst snd]. rewrite Ef. reflexivity.
      * intros Hcap.
        assert (0 <= (ch * 256 + cl) * (fh * 256 + fl) <= 100 * 65535)
          by nia.
        rewrite (int_of_small ((ch * 256 + cl) * (fh * 256 + fl))) by lia.
        rewrite int_of_small by lia. reflexivity.
    + destruct (get_bat_info_reads hw false REG_BAT_FULLCHG_CAP_HIGH
                  REG_BAT_FULLCHG_CAP_LOW st)
        as [fh [fl [Hfh [Hfl Ef]]]].
      destruct (get_bat_info_reads hw false REG_BAT_RELATIVE_CAP_HIGH
                  REG_BAT_RELATIVE_CAP_LOW
                  (logs [EcRead REG_BAT_FULLCHG_CAP_LOW fl;
                         EcRead REG_BAT_FULLCHG_CAP_HIGH fh] st))
        as [ch [cl [Hch [Hcl Ec]]]].
      exists ch, cl, fh, fl. split; [ split; assumption | ].
      split; [ split; assumption | ].
      cbv zeta. split.
      * rewrite !bind_eq, Ef. cbn [fst snd]. rewrite Ec. reflexivity.
      * intros Hcap.
        assert (0 <= (ch * 256 + cl) * (fh * 256 + fl) <= 100 * 65535)
          by nia.
        rewrite (int_of_small ((ch * 256 + cl) * (fh * 256 + fl))) by lia.
        rewrite int_of_small by lia. reflexivity.
Qed.

End Battery.

(** ** Suspend and resume *)

Section PowerManagement.

Context {hdr : Headers} {sub : SubdriverHeaders}.
Variable hw : Hardware.

Section PowerManagementFrame.

Variable P : driver -> Prop.
Hypothesis P_log : forall e st, P st -> P (log e st).

Lemma stable_wlan_set (status : Z) : stable P (wlan_set status).
Proof.
  unfold wlan_set. destruct (truthy status); now apply stable_ec_write.
Qed.

Lemma stable_usb_ports_set (status : Z) : stable P (usb_ports_set status).
Proof.
  unfold usb_ports_set. repeat stable_step; now apply stable_ec_write.
Qed.

(** What comes before the arming in [yeeloong_resume]. *)
Lemma stable_resume_outputs :
  stable P
    ((if truthy (ec_version_before hw "EC_VER=PQ1D27")
      then display_vo_set hw LCD ON else ret tt) ;;
     display_vo_set hw CRT ON ;; usb_ports_set ON ;; wlan_set ON).
Proof.
  repeat stable_step;
    first [ now apply stable_display_vo_set | apply stable_usb_ports_set
          | apply stable_wlan_set ].
Qed.

Lemma stable_yeeloong_suspend : stable P (yeeloong_suspend hw).
Proof.
  unfold yeeloong_suspend. repeat stable_step;
    first [ now apply stable_display_vo_set | apply stable_usb_ports_set
          | apply stable_wlan_set ].
Qed.

Lemma stable_yeeloong_resume : stable P (yeeloong_resume hw).
Proof.
  unfold yeeloong_resume. repeat stable_step;
    first [ now apply stable_display_vo_set | apply stable_usb_ports_set
          | apply stable_wlan_set | now apply stable_sci_irq_init ].
Qed.

End PowerManagementFrame.

Lemma same_statics_log (st : driver) (e : io_event) (s : driver) :
  same_statics st s -> same_statics st (log e s).
Proof. intros H. exact H. Qed.

Lemma same_statics_refl (st : driver) : same_statics st st.
Proof. repeat split. Qed.

(** X18.  Suspend and resume act on the outputs, the USB ports and the
    WLAN switch only: the rotation index, the stored samples and the
    registration flag come out as they went in, so that a resume, which
    switches both outputs on, leaves the rotation index where it was.
    [yeeloong_suspend] always returns 0.  [yeeloong_resume] ends by arming
    the SCI line again and returns 0 when the arming returned 0 and
    [-EFAULT] otherwise. *)
Theorem suspend_resume_frame (st : driver) :
  fst (yeeloong_suspend hw st) = 0 /\
  same_statics st (snd (yeeloong_suspend hw st)) /\
  same_statics st (snd (yeeloong_resume hw st)) /\
  exists st1,
    same_statics st st1 /\
    yeeloong_resume hw st
      = ((if fst (sci_irq_init hw st1) =? 0 then 0 else - EFAULT),
         snd (sci_irq_init hw st1)).
Proof.
  split; [ | split; [ | split ] ].
  - unfold yeeloong_suspend. rewrite !bind_eq. reflexivity.
  - apply (stable_yeeloong_suspend (same_statics st) (same_statics_log st)).
    apply same_statics_refl.
  - apply (stable_yeeloong_resume (same_statics st) (same_statics_log st)).
    apply same_statics_refl.
  - exists (snd (((if truthy (ec_version_before hw "EC_VER=PQ1D27")
                   then display_vo_set hw LCD ON else ret tt) ;;
                  display_vo_set hw CRT ON ;; usb_ports_set ON ;;
                  wlan_set ON) st)).
    split.
    + apply (stable_resume_outputs (same_statics st) (same_statics_log st)).
      apply same_statics_refl.
    + unfold yeeloong_resume. rewrite !bind_eq. cbn [fst snd].
      unfold truthy. destruct (fst (sci_irq_init hw _) =? 0); reflexivity.
Qed.

End PowerManagement.

(** * The further theorems at work on the sample machine *)

Lemma lemote2f_events_distinct : @events_distinct lemote2f.
Proof.
  unfold events_distinct, hotkey_events. vm_compute.
  repeat (constructor; [ intros H; cbn in H; intuition discriminate | ]).
  constructor.
Defined.

Lemma register_file_hw_retains (ver : string) (reg : Z) :
  ec_retains (register_file_hw ver) reg.
Proof.
  intros history v H. cbn [hw_ec_read register_file_hw]. now rewrite H.
Defined.

Lemma brightness_and_volume_keys_witness :
  let hw := steady_hw 5 0 0 "" in
  @events_distinct lemote2f /\
  @REG_DISPLAY_BRIGHTNESS lemote2f <> 0 /\
  @REG_AUDIO_VOLUME lemote2f <> 0 /\
  (@KEY_BRIGHTNESSUP lemote2f <> @SW_LID lemote2f /\
   @KEY_BRIGHTNESSDOWN lemote2f <> @SW_LID lemote2f) /\
  (@KEY_VOLUMEUP lemote2f <> @SW_LID lemote2f /\
   @KEY_VOLUMEDOWN lemote2f <> @SW_LID lemote2f) /\
  trace (snd (@do_event_action lemote2f hw 0x2D driver_load))
    = [EcRead 0xF4F5 5;
       SparseKeymapReportEntry (mk_key_entry KE_KEY 0x2D 225) 1 true].
Proof.
  intros hw.
  assert (H1 : @REG_DISPLAY_BRIGHTNESS lemote2f <> 0)
    by (vm_compute; discriminate).
  assert (H2 : @REG_AUDIO_VOLUME lemote2f <> 0) by (vm_compute; discriminate).
  assert (H3 : @KEY_BRIGHTNESSUP lemote2f <> @SW_LID lemote2f /\
               @KEY_BRIGHTNESSDOWN lemote2f <> @SW_LID lemote2f)
    by (split; vm_compute; discriminate).
  assert (H4 : @KEY_VOLUMEUP lemote2f <> @SW_LID lemote2f /\
               @KEY_VOLUMEDOWN lemote2f <> @SW_LID lemote2f)
    by (split; vm_compute; discriminate).
  split; [ exact lemote2f_events_distinct | ].
  split; [ exact H1 | ]. split; [ exact H2 | ].
  split; [ exact H3 | ]. split; [ exact H4 | ].
  exact (f_equal (fun r => trace (snd r))
           (proj1 (@brightness_and_volume_keys lemote2f hw driver_load
                     lemote2f_events_distinct H1 H2 H3 H4))).
Defined.

Lemma ac_bat_event_end_to_end_witness :
  let hw := steady_hw 0 0 0x2E "" in
  let st := set_ac_bat_initialized 1 driver_load in
  @events_distinct lemote2f /\
  0 <= int_of (hw_ec_query_event_num hw (trace st)) /\
  int_of (hw_ec_get_event_num hw (trace st ++ [EcQueryEventNum 0]))
    = @EVENT_AC_BAT lemote2f /\
  @EVENT_START lemote2f <= @EVENT_AC_BAT lemote2f <= @EVENT_END lemote2f /\
  fst (@sci_irq_handler lemote2f hw 0x0A st) = IRQ_HANDLED /\
  trace (snd (@sci_irq_handler lemote2f hw 0x0A st))
    = [EcQueryEventNum 0; EcGetEventNum 0x2E;
       PowerSupplyChanged yeeloong_ac; PowerSupplyChanged yeeloong_bat].
Proof.
  intros hw st.
  assert (H1 : 0 <= int_of (hw_ec_query_event_num hw (trace st)))
    by (vm_compute; discriminate).
  assert (H2 : int_of (hw_ec_get_event_num hw
                         (trace st ++ [EcQueryEventNum 0]))
               = @EVENT_AC_BAT lemote2f) by reflexivity.
  assert (H3 : @EVENT_START lemote2f <= @EVENT_AC_BAT lemote2f
               <= @EVENT_END lemote2f)
    by (split; vm_compute; discriminate).
  split; [ exact lemote2f_events_distinct | ].
  split; [ exact H1 | ]. split; [ exact H2 | ]. split; [ exact H3 | ].
  pose proof (@ac_bat_event_end_to_end lemote2f hw st
                lemote2f_events_distinct H1 H2 H3) as E.
  split.
  - exact (f_equal fst E).
  - exact (f_equal (fun r => trace (snd r)) E).
Defined.

Lemma events_without_case_witness :
  let hw := steady_hw 0 0 0 "" in
  @events_distinct lemote2f /\
  @KEY_SLEEP lemote2f <> @SW_LID lemote2f /\
  @KEY_WLAN lemote2f <> @SW_LID lemote2f /\
  @do_event_action lemote2f hw 0x25 driver_load
    = (tt, log (SparseKeymapReportEntry (mk_key_entry KE_KEY 0x25 142) 1 true)
             driver_load).
Proof.
  intros hw.
  assert (H1 : @KEY_SLEEP lemote2f <> @SW_LID lemote2f)
    by (vm_compute; discriminate).
  assert (H2 : @KEY_WLAN lemote2f <> @SW_LID lemote2f)
    by (vm_compute; discriminate).
  split; [ exact lemote2f_events_distinct | ].
  split; [ exact H1 | ]. split; [ exact H2 | ].
  exact (proj1 (@events_without_case lemote2f hw driver_load
                  lemote2f_events_distinct H1 H2)).
Defined.

Lemma sci_irq_init_arms_witness :
  let hw := steady_hw 0 0 0 "" in
  fst (@sci_irq_init lemote2f hw driver_load) = 0 /\
  exists hi0 lo0 hi1 lo1 hi2 lo2 hi3 lo3,
    trace (snd (@sci_irq_init lemote2f hw driver_load))
      = [] ++
        [Rdmsr 0x5140000C hi0 lo0;
         EcQueryEventNum 0;
         Mdelay 10000;
         LocalIrqSave;
         Rdmsr 0x80000024 hi1 lo1; Wrmsr 0x80000024 hi1 (Z.clearbit lo1 10);
         Rdmsr 0x80000025 hi2 lo2; Wrmsr 0x80000025 hi2 (Z.clearbit lo2 10);
         Rdmsr 0x80000023 hi3 lo3; Wrmsr 0x80000023 hi3 (Z.lor lo3 0x0a);
         LocalIrqRestore;
         Outl 0x800 (Z.lor (Z.land lo0 0xff00) 0xA0);
         Outl 0x800 (Z.lor (Z.land lo0 0xff00) 0xA4);
         Outl 0x800 (Z.lor (Z.land lo0 0xff00) 0xB8)].
Proof.
  intros hw.
  assert (H : fst (@sci_irq_init lemote2f hw driver_load) = 0) by reflexivity.
  split; [ exact H | ].
  exact (@sci_irq_init_arms lemote2f hw driver_load H).
Defined.

Lemma fan_pwm_enable_round_trip_witness :
  let hw := register_file_hw "" in
  ec_retains hw (@REG_FAN_AUTO_MAN_SWITCH lemote2f_sub) /\
  ec_retains hw (@REG_FAN_SPEED_LEVEL lemote2f_sub) /\
  @REG_FAN_SPEED_LEVEL lemote2f_sub <> @REG_FAN_AUTO_MAN_SWITCH lemote2f_sub /\
  0 <= @BIT_FAN_MANUAL lemote2f_sub < 256 /\
  0 <= @BIT_FAN_AUTO lemote2f_sub < 256 /\
  @BIT_FAN_AUTO lemote2f_sub <> @BIT_FAN_MANUAL lemote2f_sub /\
  fst (@get_fan_pwm_enable lemote2f_sub hw
         (snd (@set_fan_pwm_enable lemote2f_sub 0 driver_load))) = 0 /\
  fst (@get_fan_pwm_enable lemote2f_sub hw
         (snd (@set_fan_pwm_enable lemote2f_sub 2 driver_load))) = 2.
Proof.
  intros hw.
  assert (H1 : ec_retains hw (@REG_FAN_AUTO_MAN_SWITCH lemote2f_sub))
    by apply register_file_hw_retains.
  assert (H2 : ec_retains hw (@REG_FAN_SPEED_LEVEL lemote2f_sub))
    by apply register_file_hw_retains.
  assert (H3 : @REG_FAN_SPEED_LEVEL lemote2f_sub
               <> @REG_FAN_AUTO_MAN_SWITCH lemote2f_sub)
    by (vm_compute; discriminate).
  assert (H4 : 0 <= @BIT_FAN_MANUAL lemote2f_sub < 256)
    by (split; vm_compute; [ discriminate | reflexivity ]).
  assert (H5 : 0 <= @BIT_FAN_AUTO lemote2f_sub < 256)
    by (split; vm_compute; [ discriminate | reflexivity ]).
  assert (H6 : @BIT_FAN_AUTO lemote2f_sub <> @BIT_FAN_MANUAL lemote2f_sub)
    by (vm_compute; discriminate).
  repeat (split; [ assumption | ]).
  pose proof (@fan_pwm_enable_round_trip lemote2f_sub hw driver_load
                H1 H2 H3 H4 H5 H6) as E.
  exact (conj (proj1 E) (proj1 (proj2 E))).
Defined.

Lemma battery_absent_witness :
  let hw := steady_hw 0 0 0 "" in
  Z.land (u8_of (hw_ec_read hw (trace driver_load)
                   (@REG_BAT_STATUS lemote2f_sub)))
    (@BIT_BAT_STATUS_IN lemote2f_sub) = 0 /\
  @yeeloong_get_bat_props lemote2f_sub hw true POWER_SUPPLY_PROP_TEMP
    driver_load
    = ((0, Some (intval 0)), log (EcRead 0xF4B0 0) driver_load).
Proof.
  intros hw.
  assert (H : Z.land (u8_of (hw_ec_read hw (trace driver_load)
                               (@REG_BAT_STATUS lemote2f_sub)))
                (@BIT_BAT_STATUS_IN lemote2f_sub) = 0) by reflexivity.
  split; [ exact H | ].
  exact (proj1 (@battery_absent lemote2f_sub hw true POWER_SUPPLY_PROP_TEMP
                  driver_load H
                  (or_intror (or_intror (or_intror (or_introl eq_refl)))))).
Defined.
